(** * Pattern selection and quote transforms of the site editor

    A shallow embedding of two modules of the block editor:

    - the pattern selection hook [usePatterns] with its helpers
      ([templatePartToPattern], [patternBlockToPattern] and the [select*]
      functions), and
    - the transform table of the quote block (v2).

    JavaScript values are embedded in the type [value]; plain objects are
    finite maps from property names to values, so that the presence or
    the absence of a key can be talked about. *)

From stdpp Require Import gmap strings list fin_maps pretty.

Local Open Scope string_scope.

(** ** JavaScript values *)

Module JS.

(** The values handled by the two modules: the primitives, arrays and
    plain objects. Numbers are the integer-valued ones (record and
    category ids); an object is the finite map of its own enumerable
    properties. *)
#[warnings="-register-all"]
Inductive value : Type :=
| VUndefined
| VNull
| VBool (b : bool)
| VNum (n : Z)
| VStr (s : string)
| VArr (elems : list value)
| VObj (props : gmap string value).

Abbreviation object := (gmap string value).

(** ToBoolean *)
Definition truthy (v : value) : bool :=
  match v with
  | VUndefined | VNull => false
  | VBool b => b
  | VNum n => negb (n =? 0)%Z
  | VStr s => negb (String.eqb s "")
  | VArr _ | VObj _ => true
  end.

(** [a || b] and [a && b] (values, not booleans) *)
Definition logical_or (a b : value) : value := if truthy a then a else b.
Definition logical_and (a b : value) : value := if truthy a then b else a.

(** [a === b]. Arrays and objects are compared by identity in JavaScript;
    the embedding keeps no identities, and two arrays or objects count as
    distinct. [SameValueZero], used by [Array.prototype.includes], agrees
    with [===] on the values embedded here. *)
Definition strict_eq (a b : value) : bool :=
  match a, b with
  | VUndefined, VUndefined => true
  | VNull, VNull => true
  | VBool x, VBool y => Bool.eqb x y
  | VNum x, VNum y => (x =? y)%Z
  | VStr x, VStr y => String.eqb x y
  | _, _ => false
  end.

(** [arr.includes(x)] on the elements of an array *)
Definition includes (elems : list value) (x : value) : bool :=
  existsb (fun e => strict_eq e x) elems.

(** [o.k] on an object: the property, or [undefined] *)
Definition get (o : object) (k : string) : value :=
  default VUndefined (o !! k).

(** [o.hasOwnProperty(k)] *)
Definition hasOwnProperty (o : object) (k : string) : bool :=
  bool_decide (is_Some (o !! k)).

(** ToString, for the string concatenation [a + b]. Integers print in
    decimal (as JavaScript does below 10^21), objects as
    [[object Object]], arrays as their elements joined by commas, [null]
    and [undefined] elements as the empty string. *)
Fixpoint to_string (v : value) : string :=
  match v with
  | VUndefined => "undefined"
  | VNull => "null"
  | VBool true => "true"
  | VBool false => "false"
  | VNum n => pretty n
  | VStr s => s
  | VArr elems =>
      let element e :=
        match e with
        | VUndefined | VNull => ""
        | _ => to_string e
        end in
      (fix join (l : list value) : string :=
         match l with
         | [] => ""
         | [e] => element e
         | e :: l' => element e +:+ "," +:+ join l'
         end) elems
  | VObj _ => "[object Object]"
  end.

(** [a + s] and [s + b] where one side is a string: concatenation *)
Definition concat (a b : value) : value :=
  VStr (to_string a +:+ to_string b).

(** The members of an object literal [{ k: v, ...e }], in source order *)
Inductive member : Type :=
| Field (k : string) (v : value)
| Spread (v : value).

(** The own enumerable properties a spread [...v] copies: those of an
    object, the indexed elements of an array, the characters of a string,
    none for the other primitives. *)
Definition own_properties (v : value) : object :=
  match v with
  | VObj o => o
  | VArr elems => list_to_map (imap (fun i e => (pretty i, e)) elems)
  | VStr s =>
      list_to_map
        (imap (fun i c => (pretty i, VStr (String c EmptyString)))
              (String.list_ascii_of_string s))
  | VUndefined | VNull | VBool _ | VNum _ => ∅
  end.

Definition add_member (o : object) (m : member) : object :=
  match m with
  | Field k v => <[k := v]> o
  | Spread v => own_properties v ∪ o
  end.

(** An object literal: later members override earlier ones *)
Definition literal (ms : list member) : object :=
  foldl add_member ∅ ms.

(** A value that may be [null] or [undefined], for results typed by the
    data layer *)
Inductive nullable (A : Type) : Type :=
| Null
| Undefined
| Defined (a : A).
Arguments Null {A}.
Arguments Undefined {A}.
Arguments Defined {A} a.

(** [x ?? d] and [x || d] where [x] is an array or an object that may be
    missing (arrays and objects are truthy) *)
Definition or_else {A B : Type} (inj : A -> B) (x : nullable A) (d : B) : B :=
  match x with
  | Defined a => inj a
  | Null | Undefined => d
  end.

(** A default parameter value [p = d] *)
Definition param_default (p d : value) : value :=
  match p with
  | VUndefined => d
  | _ => p
  end.

(** [arr.filter( f )] where the callback receives the element, its index
    and the array *)
Definition filter_indexed {A : Type} (f : A -> nat -> list A -> bool)
  (l : list A) : list A :=
  map snd (List.filter (fun ix => f ix.2 ix.1 l) (imap (fun i x => (i, x)) l)).

End JS.

Import JS.

(** Goals that hold by evaluating an object literal *)
Ltac by_evaluation := vm_compute; reflexivity.

(** ** The blocks API

    [createBlock] belongs to the blocks package, which is not part of the
    two modules. A block is represented by what [createBlock] is called
    with: its name, its attributes and its inner blocks, as passed. The
    client id the library generates and the attribute defaults it fills in
    are not represented. *)

Module Block.

#[warnings="-register-all"]
Inductive t : Type :=
| createBlock (name : string) (attributes : object) (innerBlocks : list t).

Definition name (b : t) : string :=
  match b with createBlock n _ _ => n end.
Definition attributes (b : t) : object :=
  match b with createBlock _ a _ => a end.
Definition innerBlocks (b : t) : list t :=
  match b with createBlock _ _ i => i end.

End Block.

Abbreviation createBlock := Block.createBlock.

(** ** The transform table of the quote block *)

Module Transform.

(** An entry of a transform table. [isMatch] is [None] for an entry
    without that property. *)
Record t : Type := {
  type : string;
  blocks : list string;
  isMatch : option (object -> Block.t -> bool);
  transform : object -> list Block.t -> Block.t;
}.

End Transform.

Module Transforms.

Record t : Type := {
  from : list Transform.t;
  to : list Transform.t;
}.

End Transforms.

(** The entry of a table whose [blocks] list names the given block *)
Definition entry_for (blockName : string) (table : list Transform.t)
  : option Transform.t :=
  List.find (fun entry => bool_decide (blockName ∈ Transform.blocks entry)) table.

Section QuoteTransforms.

(** [serialize] and [parseWithAttributeSchema] of the blocks package *)
Variable serialize : list Block.t -> value.
Variable parseWithAttributeSchema : value -> value -> list object.

(** The schema literal of the pullquote entry: the text of every [p] *)
Definition paragraphsSchema : value :=
  VObj (literal
    [ Field "type" (VStr "array");
      Field "source" (VStr "query");
      Field "selector" (VStr "p");
      Field "query"
        (VObj (literal
           [ Field "content"
               (VObj (literal
                  [ Field "type" (VStr "string");
                    Field "source" (VStr "text") ])) ])) ]).

Definition from_group : Transform.t :=
  {| Transform.type := "block";
     Transform.blocks := [ "core/group" ];
     Transform.isMatch := None;
     Transform.transform := fun _ innerBlocks =>
       createBlock "core/quote" (literal []) innerBlocks |}.

Definition from_pullquote : Transform.t :=
  {| Transform.type := "block";
     Transform.blocks := [ "core/pullquote" ];
     Transform.isMatch := None;
     Transform.transform := fun attributes _ =>
       let value := get attributes "value" in
       let citation := get attributes "citation" in
       createBlock "core/quote"
         (literal [ Field "attribution" citation ])
         (map (fun paragraph =>
                 createBlock "core/paragraph"
                   (literal [ Field "content" (get paragraph "content") ])
                   [])
              (parseWithAttributeSchema value paragraphsSchema)) |}.

Definition to_group : Transform.t :=
  {| Transform.type := "block";
     Transform.blocks := [ "core/group" ];
     Transform.isMatch := None;
     Transform.transform := fun attributes innerBlocks =>
       let attribution := get attributes "attribution" in
       createBlock "core/group" (literal [])
         (if truthy attribution
          then (innerBlocks
                ++ [ createBlock "core/paragraph"
                       (literal [ Field "content" attribution ]) [] ])%list
          else innerBlocks) |}.

Definition to_pullquote : Transform.t :=
  {| Transform.type := "block";
     Transform.blocks := [ "core/pullquote" ];
     Transform.isMatch := Some (fun attributes block =>
       forallb (fun inner => String.eqb (Block.name inner) "core/paragraph")
               (Block.innerBlocks block));
     Transform.transform := fun attributes innerBlocks =>
       let attribution := get attributes "attribution" in
       createBlock "core/pullquote"
         (literal [ Field "value" (serialize innerBlocks);
                    Field "citation" attribution ])
         [] |}.

Definition transforms : Transforms.t :=
  {| Transforms.from := [ from_group; from_pullquote ];
     Transforms.to := [ to_group; to_pullquote ] |}.

End QuoteTransforms.

(** ** Records of the data layer *)

(** A template-part record, with the properties [templatePartToPattern]
    reads: [content.raw], [area], [description], [source], [keywords],
    [theme], [slug], [title.rendered] and [type]. *)
Module TemplatePart.

Record t : Type := {
  content_raw : value;
  area : value;
  description : value;
  source : value;
  keywords : value;
  theme : value;
  slug : value;
  title_rendered : value;
  type : value;
}.

(** The record as a value, for the [templatePart] property of a pattern *)
Definition to_value (r : t) : value :=
  VObj (literal
    [ Field "content" (VObj (literal [ Field "raw" (content_raw r) ]));
      Field "area" (area r);
      Field "description" (description r);
      Field "source" (source r);
      Field "keywords" (keywords r);
      Field "theme" (theme r);
      Field "slug" (slug r);
      Field "title" (VObj (literal [ Field "rendered" (title_rendered r) ]));
      Field "type" (type r) ]).

End TemplatePart.

(** A user-authored pattern post, with the properties
    [patternBlockToPattern] reads: [content.raw], [wp_pattern_category]
    (an array of category ids), [id], [slug], [wp_pattern_sync_status] and
    [title.raw]. *)
Module PatternPost.

Record t : Type := {
  content_raw : value;
  wp_pattern_category : list Z;
  id : value;
  slug : value;
  wp_pattern_sync_status : value;
  title_raw : value;
}.

Definition to_value (r : t) : value :=
  VObj (literal
    [ Field "content" (VObj (literal [ Field "raw" (content_raw r) ]));
      Field "wp_pattern_category" (VArr (VNum <$> wp_pattern_category r));
      Field "id" (id r);
      Field "slug" (slug r);
      Field "wp_pattern_sync_status" (wp_pattern_sync_status r);
      Field "title" (VObj (literal [ Field "raw" (title_raw r) ])) ]).

End PatternPost.

(** An entry of the user pattern category map; the module reads its
    [slug]. *)
Module Category.

Record t : Type := { slug : value }.

End Category.

(** The result of [getUserPatternCategories] *)
Module UserPatternCategories.

Record t : Type := {
  patternCategories : list Category.t;
  patternCategoriesMap : nullable (gmap Z Category.t);
}.

End UserPatternCategories.

(** The query [{ per_page: -1 }] *)
Record Query : Type := { per_page : Z }.

(** The selectors of the core store the module calls. [getEntityRecords]
    is given once per record type it is asked for. *)
Module CoreStore.

Record t : Type := {
  getEntityRecords_template_parts :
    string -> value -> Query -> nullable (list TemplatePart.t);
  getEntityRecords_patterns :
    string -> value -> Query -> nullable (list PatternPost.t);
  getIsResolving : string -> string * value * Query -> bool;
  getUserPatternCategories : UserPatternCategories.t;
  getBlockPatterns : nullable (list object);
}.

End CoreStore.

Module EditorStore.

Record t : Type := {
  __experimentalGetDefaultTemplatePartAreas : nullable (list object);
}.

End EditorStore.

(** The settings object returned by [getSettings] of the site editor
    store *)
Module Settings.

Record t : Type := {
  __experimentalAdditionalBlockPatterns : nullable (list object);
  __experimentalBlockPatterns : nullable (list object);
}.

End Settings.

Module EditSiteStore.

Record t : Type := { getSettings : Settings.t }.

End EditSiteStore.

(** What [select] gives access to: [select( coreStore )],
    [select( editorStore )] and [unlock( select( editSiteStore ) )] *)
Module Select.

Record t : Type := {
  coreStore : CoreStore.t;
  editorStore : EditorStore.t;
  editSiteStore : EditSiteStore.t;
}.

End Select.

(** The options argument [{ categoryId, search, syncStatus }]; a missing
    option is [undefined], as in the default [{}]. *)
Module Options.

Record t : Type := {
  categoryId : value;
  search : value;
  syncStatus : value;
}.

Definition none : t :=
  {| categoryId := VUndefined; search := VUndefined; syncStatus := VUndefined |}.

End Options.

(** The configuration passed to [searchItems]. [hasCategory] returns
    [None] where the callback throws a [TypeError]. *)
Module SearchConfig.

Record t : Type := {
  categoryId : value;
  hasCategory : object -> value -> option value;
}.

End SearchConfig.

(** An array together with the one identity the module cares about: the
    module-level constant [EMPTY_PATTERN_LIST] is a single shared array;
    every other array is some array with the given elements. *)
Inductive array (A : Type) : Type :=
| EMPTY_PATTERN_LIST
| Arr (elems : list A).
Arguments EMPTY_PATTERN_LIST {A}.
Arguments Arr {A} elems.

Definition elements {A : Type} (a : array A) : list A :=
  match a with
  | EMPTY_PATTERN_LIST => []
  | Arr l => l
  end.

(** What the [select*] functions return: [{ patterns, isResolving }], with
    [categories] in the case of [selectUserPatterns] *)
Module Result.

Record t : Type := {
  patterns : array object;
  isResolving : bool;
  categories : option (list Category.t);
}.

End Result.

(** [v.k] for a property name [k] that arrays, strings, numbers and
    booleans do not have: the property of an object, [undefined] on the
    other values, a [TypeError] ([None]) on [undefined] and [null]. *)
Definition read (v : value) (k : string) : option value :=
  match v with
  | VObj o => Some (get o k)
  | VUndefined | VNull => None
  | VBool _ | VNum _ | VStr _ | VArr _ => Some VUndefined
  end.

(** [v?.includes( x )]: [undefined] on a missing [v], the membership test
    of an array, the substring test of a string, a [TypeError] otherwise *)
Definition optional_includes (v x : value) : option value :=
  match v with
  | VUndefined | VNull => Some VUndefined
  | VArr elems => Some (VBool (includes elems x))
  | VStr s => Some (VBool (bool_decide (is_Some (String.index 0 (to_string x) s))))
  | VBool _ | VNum _ | VObj _ => None
  end.

(** ** A concrete instance

    Sample records, a sample store and simple stand-ins for the imports,
    on which the definitions below can be evaluated. *)

Module Sample.

Definition parse : value -> object -> value :=
  fun content _ => VArr [ content ].

Definition decodeEntities : value -> value := fun text => text.

(** Keeps the items that are in the category, in their order *)
Definition searchItems : list object -> value -> SearchConfig.t -> list object :=
  fun items _ config =>
    List.filter
      (fun item =>
         match SearchConfig.hasCategory config item (SearchConfig.categoryId config) with
         | Some answer => truthy answer
         | None => false
         end)
      items.

(** Keeps the first item of every name *)
Definition filterOutDuplicatesByName : object -> nat -> list object -> bool :=
  fun currentItem index items =>
    bool_decide
      (fst <$> list_find
                 (fun item => strict_eq (get currentItem "name") (get item "name") = true)
                 items
       = Some index).

Definition CORE_PATTERN_SOURCES : list value :=
  [ VStr "core"; VStr "pattern-directory/core" ].
Definition PATTERNS : string := "pattern".
Definition TEMPLATE_PARTS : string := "wp_template_part".
Definition USER_PATTERNS : string := "wp_block".
Definition SYNC_TYPES : object :=
  literal [ Field "full" (VStr "fully"); Field "unsynced" (VStr "unsynced") ].

Definition header : TemplatePart.t :=
  {| TemplatePart.content_raw := VStr "<!-- wp:site-title /-->";
     TemplatePart.area := VStr "header";
     TemplatePart.description := VStr "";
     TemplatePart.source := VStr "theme";
     TemplatePart.keywords := VUndefined;
     TemplatePart.theme := VStr "emptytheme";
     TemplatePart.slug := VStr "header";
     TemplatePart.title_rendered := VStr "Header";
     TemplatePart.type := VStr "wp_template_part" |}.

(** A template part without a theme *)
Definition orphan : TemplatePart.t :=
  {| TemplatePart.content_raw := VStr "";
     TemplatePart.area := VStr "uncategorized";
     TemplatePart.description := VUndefined;
     TemplatePart.source := VStr "custom";
     TemplatePart.keywords := VArr [ VStr "footer" ];
     TemplatePart.theme := VStr "";
     TemplatePart.slug := VStr "orphan";
     TemplatePart.title_rendered := VStr "Orphan";
     TemplatePart.type := VStr "wp_template_part" |}.

(** A synced user pattern in the categories 7 and 9 *)
Definition hero : PatternPost.t :=
  {| PatternPost.content_raw := VStr "<!-- wp:cover /-->";
     PatternPost.wp_pattern_category := [ 7; 9 ]%Z;
     PatternPost.id := VNum 12;
     PatternPost.slug := VStr "hero";
     PatternPost.wp_pattern_sync_status := VStr "";
     PatternPost.title_raw := VStr "Hero" |}.

(** An unsynced user pattern without categories *)
Definition banner : PatternPost.t :=
  {| PatternPost.content_raw := VStr "<!-- wp:paragraph /-->";
     PatternPost.wp_pattern_category := [];
     PatternPost.id := VNum 13;
     PatternPost.slug := VStr "banner";
     PatternPost.wp_pattern_sync_status := VStr "unsynced";
     PatternPost.title_raw := VStr "Banner" |}.

Definition categoriesMap : gmap Z Category.t :=
  {[ 7%Z := {| Category.slug := VStr "featured" |} ]}.

Definition categories : UserPatternCategories.t :=
  {| UserPatternCategories.patternCategories :=
       [ {| Category.slug := VStr "featured" |} ];
     UserPatternCategories.patternCategoriesMap := Defined categoriesMap |}.

(** A theme pattern, as found in the settings *)
Definition themePattern : object :=
  literal [ Field "name" (VStr "emptytheme/cta");
            Field "title" (VStr "Call to action");
            Field "content" (VStr "<!-- wp:buttons /-->");
            Field "categories" (VArr [ VStr "featured" ]) ].

(** A store with template parts, user patterns and a theme pattern *)
Definition store : Select.t :=
  {| Select.coreStore :=
       {| CoreStore.getEntityRecords_template_parts :=
            fun _ _ _ => Defined [ header; orphan ];
          CoreStore.getEntityRecords_patterns :=
            fun _ _ _ => Defined [ hero; banner ];
          CoreStore.getIsResolving := fun _ _ => false;
          CoreStore.getUserPatternCategories := categories;
          CoreStore.getBlockPatterns := Undefined |};
     Select.editorStore :=
       {| EditorStore.__experimentalGetDefaultTemplatePartAreas :=
            Defined [ literal [ Field "area" (VStr "header") ] ] |};
     Select.editSiteStore :=
       {| EditSiteStore.getSettings :=
            {| Settings.__experimentalAdditionalBlockPatterns := Undefined;
               Settings.__experimentalBlockPatterns := Defined [ themePattern ] |} |} |}.

(** The same store under a theme without patterns *)
Definition themeless : Select.t :=
  {| Select.coreStore := Select.coreStore store;
     Select.editorStore := Select.editorStore store;
     Select.editSiteStore :=
       {| EditSiteStore.getSettings :=
            {| Settings.__experimentalAdditionalBlockPatterns := Defined [];
               Settings.__experimentalBlockPatterns := Null |} |} |}.

(** The sample store where the settings replace the patterns of the theme
    by no pattern at all *)
Definition overridden : Select.t :=
  {| Select.coreStore := Select.coreStore store;
     Select.editorStore := Select.editorStore store;
     Select.editSiteStore :=
       {| EditSiteStore.getSettings :=
            {| Settings.__experimentalAdditionalBlockPatterns := Defined [];
               Settings.__experimentalBlockPatterns := Defined [ themePattern ] |} |} |}.

(** A store whose record queries have not resolved *)
Definition unresolved : Select.t :=
  {| Select.coreStore :=
       {| CoreStore.getEntityRecords_template_parts := fun _ _ _ => Null;
          CoreStore.getEntityRecords_patterns := fun _ _ _ => Undefined;
          CoreStore.getIsResolving := fun _ _ => true;
          CoreStore.getUserPatternCategories := categories;
          CoreStore.getBlockPatterns := Undefined |};
     Select.editorStore :=
       {| EditorStore.__experimentalGetDefaultTemplatePartAreas := Undefined |};
     Select.editSiteStore :=
       {| EditSiteStore.getSettings :=
            {| Settings.__experimentalAdditionalBlockPatterns := Undefined;
               Settings.__experimentalBlockPatterns := Undefined |} |} |}.

(** [useSelect] runs its callback on the current store *)
Definition useSelect : (Select.t -> Result.t) -> list value -> Result.t :=
  fun mapSelect _ => mapSelect store.

(** A quote of two paragraphs with an attribution *)
Definition quote : Block.t :=
  createBlock "core/quote"
    (literal [ Field "attribution" (VStr "Ada") ])
    [ createBlock "core/paragraph" (literal [ Field "content" (VStr "one") ]) [];
      createBlock "core/paragraph" (literal [ Field "content" (VStr "two") ]) [] ].

End Sample.

(** ** The pattern selection module *)

Section UsePatterns.

(** *** Imports

    The functions and constants the module imports and whose code is not
    part of it: [parse] (blocks), [decodeEntities] (html-entities),
    [useSelect] (data), and from the neighbouring [./utils] and
    [./search-items] the constants and [filterOutDuplicatesByName],
    [searchItems]. *)

Variable parse : value -> object -> value.
Variable decodeEntities : value -> value.
Variable useSelect : (Select.t -> Result.t) -> list value -> Result.t.

Variable CORE_PATTERN_SOURCES : list value.
Variable PATTERNS : string.
Variable SYNC_TYPES : object.
Variable TEMPLATE_PARTS : string.
Variable USER_PATTERNS : string.
Variable filterOutDuplicatesByName : object -> nat -> list object -> bool.
Variable searchItems : list object -> value -> SearchConfig.t -> list object.

(** [{ __unstableSkipMigrationLogs: true }] *)
Definition skipMigrationLogs : object :=
  literal [ Field "__unstableSkipMigrationLogs" (VBool true) ].

Definition createTemplatePartId (theme slug : value) : value :=
  if truthy (logical_and theme slug)
  then concat (concat theme (VStr "//")) slug
  else VNull.

Definition templatePartToPattern (templatePart : TemplatePart.t) : object :=
  literal
    [ Field "blocks"
        (parse (TemplatePart.content_raw templatePart) skipMigrationLogs);
      Field "categories" (VArr [ TemplatePart.area templatePart ]);
      Field "description"
        (logical_or (TemplatePart.description templatePart) (VStr ""));
      Field "isCustom"
        (VBool (strict_eq (TemplatePart.source templatePart) (VStr "custom")));
      Field "keywords"
        (logical_or (TemplatePart.keywords templatePart) (VArr []));
      Field "id"
        (createTemplatePartId (TemplatePart.theme templatePart)
                              (TemplatePart.slug templatePart));
      Field "name"
        (createTemplatePartId (TemplatePart.theme templatePart)
                              (TemplatePart.slug templatePart));
      Field "title" (decodeEntities (TemplatePart.title_rendered templatePart));
      Field "type" (TemplatePart.type templatePart);
      Field "templatePart" (TemplatePart.to_value templatePart) ].

(** The closure [templatePartHasCategory] of
    [selectTemplatePartsAsPatterns], over the known areas *)
Definition templatePartHasCategory (templatePartAreas : list value)
  (item : object) (category : value) : option value :=
  area ← read (get item "templatePart") "area";
  if negb (strict_eq category (VStr "uncategorized"))
  then Some (VBool (strict_eq area category))
  else Some (VBool (strict_eq area category
                    || negb (includes templatePartAreas area))).

Definition selectTemplatePartsAsPatterns (select : Select.t)
  (options : Options.t) : Result.t :=
  let categoryId := Options.categoryId options in
  let search := param_default (Options.search options) (VStr "") in
  let core := Select.coreStore select in
  let query := {| per_page := -1 |} in
  let rawTemplateParts :=
    or_else Arr
      (CoreStore.getEntityRecords_template_parts core
         "postType" (VStr TEMPLATE_PARTS) query)
      EMPTY_PATTERN_LIST in
  let templateParts :=
    map (fun templatePart => templatePartToPattern templatePart)
        (elements rawTemplateParts) in
  let knownAreas :=
    or_else id
      (EditorStore.__experimentalGetDefaultTemplatePartAreas
         (Select.editorStore select))
      [] in
  let templatePartAreas := map (fun area => get area "area") knownAreas in
  let isResolving :=
    CoreStore.getIsResolving core "getEntityRecords"
      ("postType", VStr "wp_template_part", query) in
  let patterns :=
    searchItems templateParts search
      {| SearchConfig.categoryId := categoryId;
         SearchConfig.hasCategory := templatePartHasCategory templatePartAreas |} in
  {| Result.patterns := Arr patterns;
     Result.isResolving := isResolving;
     Result.categories := None |}.

Definition selectThemePatterns (select : Select.t) : Result.t :=
  let settings := EditSiteStore.getSettings (Select.editSiteStore select) in
  let blockPatterns :=
    or_else Defined
      (Settings.__experimentalAdditionalBlockPatterns settings)
      (Settings.__experimentalBlockPatterns settings) in
  let restBlockPatterns := CoreStore.getBlockPatterns (Select.coreStore select) in
  let notCore :=
    List.filter
      (fun pattern => negb (includes CORE_PATTERN_SOURCES (get pattern "source")))
      (or_else id blockPatterns [] ++ or_else id restBlockPatterns [])%list in
  let unique := filter_indexed filterOutDuplicatesByName notCore in
  let insertable :=
    List.filter
      (fun pattern => negb (strict_eq (get pattern "inserter") (VBool false)))
      unique in
  let patterns :=
    map (fun pattern =>
           literal
             [ Spread (VObj pattern);
               Field "keywords" (logical_or (get pattern "keywords") (VArr []));
               Field "type" (VStr "pattern");
               Field "blocks" (parse (get pattern "content") skipMigrationLogs) ])
        insertable in
  {| Result.patterns := Arr patterns;
     Result.isResolving := false;
     Result.categories := None |}.

Definition patternBlockToPattern (patternBlock : PatternPost.t)
  (categories : nullable (gmap Z Category.t)) : object :=
  literal
    [ Field "blocks"
        (parse (PatternPost.content_raw patternBlock) skipMigrationLogs);
      Spread
        (logical_and
           (VBool (0 <? length (PatternPost.wp_pattern_category patternBlock))%nat)
           (VObj (literal
              [ Field "categories"
                  (VArr (map
                     (fun patternCategoryId =>
                        match categories with
                        | Defined m =>
                            match m !! patternCategoryId with
                            | Some category => Category.slug category
                            | None => VNum patternCategoryId
                            end
                        | Null | Undefined => VNum patternCategoryId
                        end)
                     (PatternPost.wp_pattern_category patternBlock))) ])));
      Field "id" (PatternPost.id patternBlock);
      Field "name" (PatternPost.slug patternBlock);
      Field "syncStatus"
        (logical_or (PatternPost.wp_pattern_sync_status patternBlock)
                    (get SYNC_TYPES "full"));
      Field "title" (PatternPost.title_raw patternBlock);
      Field "type" (VStr USER_PATTERNS);
      Field "patternBlock" (PatternPost.to_value patternBlock) ].

Definition selectUserPatterns (select : Select.t) (options : Options.t)
  : Result.t :=
  let search := param_default (Options.search options) (VStr "") in
  let syncStatus := Options.syncStatus options in
  let core := Select.coreStore select in
  let query := {| per_page := -1 |} in
  let records :=
    CoreStore.getEntityRecords_patterns core "postType" (VStr USER_PATTERNS) query in
  let categories := CoreStore.getUserPatternCategories core in
  let patterns :=
    match records with
    | Defined records =>
        Arr (map (fun record =>
                    patternBlockToPattern record
                      (UserPatternCategories.patternCategoriesMap categories))
                 records)
    | Null | Undefined => EMPTY_PATTERN_LIST
    end in
  let isResolving :=
    CoreStore.getIsResolving core "getEntityRecords"
      ("postType", VStr USER_PATTERNS, query) in
  let patterns :=
    if truthy syncStatus
    then Arr (List.filter
                (fun pattern => strict_eq (get pattern "syncStatus") syncStatus)
                (elements patterns))
    else patterns in
  let patterns :=
    searchItems (elements patterns) search
      {| SearchConfig.categoryId := VUndefined;
         SearchConfig.hasCategory := fun _ _ => Some (VBool true) |} in
  {| Result.patterns := Arr patterns;
     Result.isResolving := isResolving;
     Result.categories :=
       Some (UserPatternCategories.patternCategories categories) |}.

Definition selectPatterns (select : Select.t) (options : Options.t)
  : Result.t :=
  let categoryId := Options.categoryId options in
  let search := param_default (Options.search options) (VStr "") in
  let syncStatus := Options.syncStatus options in
  let themePatterns := Result.patterns (selectThemePatterns select) in
  let userPatterns := Result.patterns (selectUserPatterns select Options.none) in
  (* [ ...( themePatterns || [] ), ...( userPatterns || [] ) ]: both are
     arrays, which are truthy *)
  let patterns := (elements themePatterns ++ elements userPatterns)%list in
  let patterns :=
    if truthy syncStatus
    then List.filter
           (fun pattern => strict_eq (get pattern "syncStatus") syncStatus)
           patterns
    else patterns in
  let patterns :=
    if truthy categoryId
    then searchItems patterns search
           {| SearchConfig.categoryId := categoryId;
              SearchConfig.hasCategory := fun item currentCategory =>
                optional_includes (get item "categories") currentCategory |}
    else searchItems patterns search
           {| SearchConfig.categoryId := VUndefined;
              SearchConfig.hasCategory := fun item _ =>
                Some (VBool (negb (hasOwnProperty item "categories"))) |} in
  {| Result.patterns := Arr patterns;
     Result.isResolving := false;
     Result.categories := None |}.

Definition usePatterns (categoryType categoryId : value) (options : Options.t)
  : Result.t :=
  let search := param_default (Options.search options) (VStr "") in
  let syncStatus := Options.syncStatus options in
  useSelect
    (fun select =>
       if strict_eq categoryType (VStr TEMPLATE_PARTS)
       then selectTemplatePartsAsPatterns select
              {| Options.categoryId := categoryId;
                 Options.search := search;
                 Options.syncStatus := VUndefined |}
       else if strict_eq categoryType (VStr PATTERNS)
       then selectPatterns select
              {| Options.categoryId := categoryId;
                 Options.search := search;
                 Options.syncStatus := syncStatus |}
       else if strict_eq categoryType (VStr USER_PATTERNS)
       then selectUserPatterns select
              {| Options.categoryId := VUndefined;
                 Options.search := search;
                 Options.syncStatus := syncStatus |}
       else {| Result.patterns := EMPTY_PATTERN_LIST;
               Result.isResolving := false;
               Result.categories := None |})
    [ categoryId; categoryType; search; syncStatus ].

(** *** The field list of the specification

    The fields of a pattern as the data model of the specification lists
    them. *)
Definition spec_pattern_fields : gset string :=
  {[ "id"; "name"; "title"; "blocks"; "categories"; "keywords";
     "syncStatus"; "type"; "isCustom" ]}.

(** The keys of the object [templatePartToPattern] builds *)
Definition templatePart_pattern_keys : gset string :=
  {[ "blocks"; "categories"; "description"; "isCustom"; "keywords";
     "id"; "name"; "title"; "type"; "templatePart" ]}.

(** The keys of the object [patternBlockToPattern] builds, [categories]
    apart *)
Definition user_pattern_keys : gset string :=
  {[ "blocks"; "id"; "name"; "syncStatus"; "title"; "type"; "patternBlock" ]}.

(** A record query that resolved to nothing *)
Definition missing {A : Type} (x : nullable A) : Prop :=
  x = Null \/ x = Undefined.

(** The slug of a category id under a category map that may be missing *)
Definition slug_or_id (categories : nullable (gmap Z Category.t)) (id : Z)
  : value :=
  match categories with
  | Defined m => from_option Category.slug (VNum id) (m !! id)
  | Null | Undefined => VNum id
  end.




(** The canonical empty result of [usePatterns] *)
Definition empty_result : Result.t :=
  {| Result.patterns := EMPTY_PATTERN_LIST;
     Result.isResolving := false;
     Result.categories := None |}.

(** *** The parts of the selection functions

    The arrays and callbacks the selection functions build on their way,
    under names of their own. *)

(** The patterns [selectThemePatterns] starts from: those of the settings
    followed by those of the REST API *)
Definition selectThemePatterns_sources (select : Select.t) : list object :=
  let settings := EditSiteStore.getSettings (Select.editSiteStore select) in
  (or_else id
     (or_else Defined
        (Settings.__experimentalAdditionalBlockPatterns settings)
        (Settings.__experimentalBlockPatterns settings))
     []
   ++ or_else id (CoreStore.getBlockPatterns (Select.coreStore select)) [])%list.

(** The last step of [selectThemePatterns]: the pattern with its keywords
    defaulted, its type set and its content parsed *)
Definition selectThemePatterns_map (pattern : object) : object :=
  literal
    [ Spread (VObj pattern);
      Field "keywords" (logical_or (get pattern "keywords") (VArr []));
      Field "type" (VStr "pattern");
      Field "blocks" (parse (get pattern "content") skipMigrationLogs) ].

(** The patterns [selectPatterns] hands to [searchItems] *)
Definition selectPatterns_candidates (select : Select.t) (syncStatus : value)
  : list object :=
  let patterns :=
    (elements (Result.patterns (selectThemePatterns select))
     ++ elements (Result.patterns (selectUserPatterns select Options.none)))%list in
  if truthy syncStatus
  then List.filter
         (fun pattern => strict_eq (get pattern "syncStatus") syncStatus)
         patterns
  else patterns.

(** The configuration [selectPatterns] hands to [searchItems] *)
Definition selectPatterns_config (categoryId : value) : SearchConfig.t :=
  if truthy categoryId
  then {| SearchConfig.categoryId := categoryId;
          SearchConfig.hasCategory := fun item currentCategory =>
            optional_includes (get item "categories") currentCategory |}
  else {| SearchConfig.categoryId := VUndefined;
          SearchConfig.hasCategory := fun item _ =>
            Some (VBool (negb (hasOwnProperty item "categories"))) |}.

(** *** What is assumed of the imports *)

(** Modelled from the spec: [searchItems] of [./search-items], which is not
    part of the module, searches and filters the list it is given; every
    item it returns is an item of that list. *)
Hypothesis searchItems_subset :
  forall (items : list object) (search : value) (config : SearchConfig.t)
         (item : object),
    item ∈ searchItems items search config -> item ∈ items.

(** Modelled from the spec: [useSelect] of the data package, which is not
    part of the module, selects from the data store; it returns what its
    callback returns on the current state of the store. *)
Variable store : Select.t.
Hypothesis useSelect_runs :
  forall (mapSelect : Select.t -> Result.t) (dependencies : list value),
    useSelect mapSelect dependencies = mapSelect store.

(** ** Properties of the values *)

Lemma strict_eq_eq (a b : value) : strict_eq a b = true -> a = b.
Proof.
  destruct a, b; simpl; try discriminate; intros H.
  - reflexivity.
  - reflexivity.
  - f_equal. by apply Bool.eqb_prop.
  - f_equal. by apply Z.eqb_eq.
  - f_equal. by apply String.eqb_eq.
Qed.

Lemma strict_eq_VStr (v : value) (s : string) :
  strict_eq v (VStr s) = true <-> v = VStr s.
Proof.
  split.
  - apply strict_eq_eq.
  - intros ->. simpl. apply String.eqb_refl.
Qed.

Lemma strict_eq_VStr_ne (v : value) (s : string) :
  v <> VStr s -> strict_eq v (VStr s) = false.
Proof.
  intros Hne. destruct (strict_eq v (VStr s)) eqn:E; [|reflexivity].
  apply strict_eq_VStr in E. contradiction.
Qed.

Lemma truthy_logical_and (a b : value) :
  truthy (logical_and a b) = truthy a && truthy b.
Proof. unfold logical_and. destruct (truthy a) eqn:E; simpl; congruence. Qed.

(** ** Properties of the pattern selection module *)

(** *** The keys of a pattern *)

Lemma templatePartToPattern_dom (templatePart : TemplatePart.t) :
  dom (templatePartToPattern templatePart) = templatePart_pattern_keys.
Proof. by_evaluation. Qed.

Lemma patternBlockToPattern_dom_nil patternBlock categories :
  PatternPost.wp_pattern_category patternBlock = [] ->
  dom (patternBlockToPattern patternBlock categories) = user_pattern_keys.
Proof.
  intros Hnil. unfold patternBlockToPattern. rewrite Hnil.
  by_evaluation.
Qed.

Lemma patternBlockToPattern_dom_cons patternBlock categories :
  PatternPost.wp_pattern_category patternBlock <> [] ->
  dom (patternBlockToPattern patternBlock categories)
  = {[ "categories" ]} ∪ user_pattern_keys.
Proof.
  intros Hne. unfold patternBlockToPattern.
  destruct (PatternPost.wp_pattern_category patternBlock) as [|c cs]; [done|].
  by_evaluation.
Qed.

(** C1 (as amended). The two projections build objects with fixed key
    sets, neither of which is the field list of the specification: a
    template-part pattern has exactly the ten keys blocks, categories,
    description, isCustom, keywords, id, name, title, type and
    templatePart (no syncStatus), and a user pattern has exactly the
    seven keys blocks, id, name, syncStatus, title, type and patternBlock,
    with categories added when wp_pattern_category is not empty (no
    keywords, no isCustom). *)
Theorem pattern_keys_by_source
  (templatePart : TemplatePart.t) (patternBlock : PatternPost.t)
  (categories : nullable (gmap Z Category.t)) :
  dom (templatePartToPattern templatePart) = templatePart_pattern_keys
  /\ templatePart_pattern_keys
     = (spec_pattern_fields ∖ {[ "syncStatus" ]}) ∪ {[ "description"; "templatePart" ]}
  /\ dom (patternBlockToPattern patternBlock categories)
     = (if decide (PatternPost.wp_pattern_category patternBlock = [])
        then user_pattern_keys
        else {[ "categories" ]} ∪ user_pattern_keys)
  /\ user_pattern_keys
     = (spec_pattern_fields ∖ {[ "categories"; "keywords"; "isCustom" ]})
       ∪ {[ "patternBlock" ]}.
Proof.
  split; [apply templatePartToPattern_dom|].
  split; [by vm_compute|].
  split; [|by vm_compute].
  case_decide as Hcat.
  - by apply patternBlockToPattern_dom_nil.
  - by apply patternBlockToPattern_dom_cons.
Qed.

(** *** The fields of a template-part pattern *)

Lemma createTemplatePartId_cases (theme slug : value) :
  createTemplatePartId theme slug
  = if truthy theme && truthy slug
    then VStr ((to_string theme +:+ "//") +:+ to_string slug)
    else VNull.
Proof.
  unfold createTemplatePartId. rewrite truthy_logical_and.
  destruct (truthy theme && truthy slug); reflexivity.
Qed.

(** C5. The derived fields of a template-part pattern follow its record:
    id and name are equal, and are the string theme//slug when theme and
    slug are both truthy and null otherwise; isCustom is true exactly when
    source is the string custom; title is the decoded title.rendered; type
    is the type of the record. *)
Theorem templatePartToPattern_fields (templatePart : TemplatePart.t) :
  let pattern := templatePartToPattern templatePart in
  let theme := TemplatePart.theme templatePart in
  let slug := TemplatePart.slug templatePart in
  get pattern "id" = get pattern "name"
  /\ get pattern "id"
     = (if truthy theme && truthy slug
        then VStr ((to_string theme +:+ "//") +:+ to_string slug)
        else VNull)
  /\ (exists isCustom : bool,
        get pattern "isCustom" = VBool isCustom
        /\ (isCustom = true <-> TemplatePart.source templatePart = VStr "custom"))
  /\ get pattern "title"
     = decodeEntities (TemplatePart.title_rendered templatePart)
  /\ get pattern "type" = TemplatePart.type templatePart.
Proof.
  intros pattern theme slug.
  assert (Hid : get pattern "id" = createTemplatePartId theme slug)
    by by_evaluation.
  assert (Hname : get pattern "name" = createTemplatePartId theme slug)
    by by_evaluation.
  split; [congruence|].
  split; [rewrite Hid; apply createTemplatePartId_cases|].
  split.
  - exists (strict_eq (TemplatePart.source templatePart) (VStr "custom")).
    split; [by_evaluation | apply strict_eq_VStr].
  - split; by_evaluation.
Qed.

(** *** The categories of a user pattern *)

Lemma patternBlockToPattern_categories patternBlock categories :
  patternBlockToPattern patternBlock categories !! "categories"
  = match PatternPost.wp_pattern_category patternBlock with
    | [] => None
    | ids => Some (VArr (map (slug_or_id categories) ids))
    end.
Proof.
  unfold patternBlockToPattern.
  destruct (PatternPost.wp_pattern_category patternBlock) as [|c cs].
  - by_evaluation.
  - destruct categories; by_evaluation.
Qed.

(** C4. The categories of a user pattern are its category ids mapped
    through the category map: the id at every position of
    wp_pattern_category is replaced, at the same position, by the slug of
    the map entry for that id when the map has one, and is kept as the id
    otherwise (also when there is no map). *)
Theorem patternBlockToPattern_category_slugs
  (patternBlock : PatternPost.t) (categories : nullable (gmap Z Category.t))
  (i : nat) (patternCategoryId : Z) :
  PatternPost.wp_pattern_category patternBlock !! i = Some patternCategoryId ->
  exists mapped : list value,
    patternBlockToPattern patternBlock categories !! "categories"
    = Some (VArr mapped)
    /\ mapped !! i
       = Some match categories with
              | Defined m =>
                  match m !! patternCategoryId with
                  | Some category => Category.slug category
                  | None => VNum patternCategoryId
                  end
              | Null | Undefined => VNum patternCategoryId
              end.
Proof.
  intros Hid. rewrite patternBlockToPattern_categories.
  destruct (PatternPost.wp_pattern_category patternBlock) as [|c cs] eqn:Hids.
  - by rewrite lookup_nil in Hid.
  - eexists. split; [reflexivity|].
    rewrite list_lookup_fmap, Hid. simpl. unfold slug_or_id.
    destruct categories as [| |m]; reflexivity.
Qed.

(** C10. A user pattern has a categories key exactly when
    wp_pattern_category is not empty: with an empty list the object has no
    such key, and with a non-empty list the key holds an array of the
    same length. *)
Theorem patternBlockToPattern_categories_key
  (patternBlock : PatternPost.t) (categories : nullable (gmap Z Category.t)) :
  let ids := PatternPost.wp_pattern_category patternBlock in
  let pattern := patternBlockToPattern patternBlock categories in
  (is_Some (pattern !! "categories") <-> ids <> [])
  /\ hasOwnProperty pattern "categories" = negb (bool_decide (length ids = 0))
  /\ (length ids = 0 -> pattern !! "categories" = None)
  /\ (length ids <> 0 ->
        exists mapped : list value,
          pattern !! "categories" = Some (VArr mapped)
          /\ length mapped = length ids).
Proof.
  intros ids pattern. subst pattern. unfold hasOwnProperty.
  rewrite patternBlockToPattern_categories. fold ids.
  destruct ids as [|c cs]; simpl.
  - split; [split; [intros [? ?]; discriminate | done]|].
    split; [reflexivity|]. split; [done | lia].
  - split; [split; [done | eauto]|].
    split; [reflexivity|]. split; [lia|].
    intros _. eexists. split; [reflexivity|].
    simpl. by rewrite length_map.
Qed.

(** *** Selection *)

Lemma searchItems_nil (search : value) (config : SearchConfig.t) :
  searchItems [] search config = [].
Proof.
  destruct (searchItems [] search config) as [|item items] eqn:E; [done|].
  exfalso. eapply not_elem_of_nil, (searchItems_subset [] search config item).
  rewrite E. left.
Qed.

Lemma elem_of_filter_syncStatus (syncStatus : value) (patterns : list object)
  (pattern : object) :
  pattern ∈ List.filter
              (fun pattern => strict_eq (get pattern "syncStatus") syncStatus)
              patterns ->
  strict_eq (get pattern "syncStatus") syncStatus = true.
Proof.
  rewrite list_elem_of_In, filter_In. by intros [_ H].
Qed.

(** C2. When the record query resolves to nothing ([null] or
    [undefined]), [selectTemplatePartsAsPatterns] and [selectUserPatterns]
    return an empty list of patterns. *)
Theorem no_records_no_patterns (select : Select.t) (options : Options.t) :
  let core := Select.coreStore select in
  let query := {| per_page := -1 |} in
  (missing (CoreStore.getEntityRecords_template_parts core
              "postType" (VStr TEMPLATE_PARTS) query) ->
   elements (Result.patterns (selectTemplatePartsAsPatterns select options)) = [])
  /\ (missing (CoreStore.getEntityRecords_patterns core
                 "postType" (VStr USER_PATTERNS) query) ->
      elements (Result.patterns (selectUserPatterns select options)) = []).
Proof.
  intros core query. split; intros Hmissing.
  - unfold selectTemplatePartsAsPatterns. fold core query.
    destruct Hmissing as [-> | ->]; simpl; apply searchItems_nil.
  - unfold selectUserPatterns. fold core query.
    destruct Hmissing as [-> | ->];
      destruct (truthy (Options.syncStatus options)); simpl;
      apply searchItems_nil.
Qed.

(** C6. Filtering by sync status is sound: with a truthy syncStatus
    option, every pattern [selectPatterns] and [selectUserPatterns]
    return has that value as its syncStatus (it passes the strict
    comparison of the filter). The syncStatus of a user pattern is its
    wp_pattern_sync_status, or SYNC_TYPES.full when that is falsy. *)
Theorem syncStatus_filter_sound (select : Select.t) (options : Options.t)
  (pattern : object) :
  truthy (Options.syncStatus options) = true ->
  (pattern ∈ elements (Result.patterns (selectPatterns select options)) ->
   strict_eq (get pattern "syncStatus") (Options.syncStatus options) = true
   /\ get pattern "syncStatus" = Options.syncStatus options)
  /\ (pattern ∈ elements (Result.patterns (selectUserPatterns select options)) ->
      strict_eq (get pattern "syncStatus") (Options.syncStatus options) = true
      /\ get pattern "syncStatus" = Options.syncStatus options)
  /\ (forall (patternBlock : PatternPost.t)
             (categories : nullable (gmap Z Category.t)),
        get (patternBlockToPattern patternBlock categories) "syncStatus"
        = if truthy (PatternPost.wp_pattern_sync_status patternBlock)
          then PatternPost.wp_pattern_sync_status patternBlock
          else get SYNC_TYPES "full").
Proof.
  intros Htruthy.
  assert (Hsound : forall patterns search config,
             pattern ∈ searchItems
                         (List.filter
                            (fun pattern =>
                               strict_eq (get pattern "syncStatus")
                                         (Options.syncStatus options))
                            patterns)
                         search config ->
             strict_eq (get pattern "syncStatus") (Options.syncStatus options) = true
             /\ get pattern "syncStatus" = Options.syncStatus options).
  { intros patterns search config Hin.
    apply searchItems_subset, elem_of_filter_syncStatus in Hin.
    split; [done | by apply strict_eq_eq]. }
  split; [|split].
  - unfold selectPatterns. simpl. rewrite Htruthy.
    destruct (truthy (Options.categoryId options)); apply Hsound.
  - unfold selectUserPatterns. simpl. rewrite Htruthy. simpl. apply Hsound.
  - intros patternBlock categories. unfold patternBlockToPattern.
    destruct (PatternPost.wp_pattern_category patternBlock);
      by_evaluation.
Qed.


(** *** The hook *)

(** C8. For a category type that is none of TEMPLATE_PARTS, PATTERNS and
    USER_PATTERNS ([undefined] included), [usePatterns] returns the
    canonical empty result: its patterns are the shared constant
    EMPTY_PATTERN_LIST itself, and isResolving is false. *)
Theorem usePatterns_other_category_type
  (categoryType categoryId : value) (options : Options.t) :
  categoryType <> VStr TEMPLATE_PARTS ->
  categoryType <> VStr PATTERNS ->
  categoryType <> VStr USER_PATTERNS ->
  usePatterns categoryType categoryId options = empty_result
  /\ Result.patterns (usePatterns categoryType categoryId options)
     = EMPTY_PATTERN_LIST
  /\ Result.isResolving (usePatterns categoryType categoryId options) = false.
Proof.
  intros Htemplate Hpatterns Huser.
  assert (Hresult : usePatterns categoryType categoryId options = empty_result).
  { unfold usePatterns. rewrite useSelect_runs.
    by rewrite !strict_eq_VStr_ne. }
  by rewrite Hresult.
Qed.

(** ** Further properties of the pattern selection module *)

(** *** Values *)

Lemma strict_eq_sym (a b : value) : strict_eq a b = strict_eq b a.
Proof.
  destruct a, b; simpl; try reflexivity.
  - by destruct b, b0.
  - apply Z.eqb_sym.
  - apply String.eqb_sym.
Qed.

Lemma includes_true (elems : list value) (x : value) :
  includes elems x = true <-> exists e, e ∈ elems /\ strict_eq e x = true.
Proof.
  unfold includes. rewrite existsb_exists. split.
  - intros (e & Hin & He). exists e. by rewrite list_elem_of_In.
  - intros (e & Hin & He). exists e. by rewrite <- list_elem_of_In.
Qed.

Lemma truthy_defined (v : value) :
  truthy v = true -> v <> VUndefined /\ v <> VNull.
Proof. by destruct v. Qed.

Lemma append_separator_nonempty (a b : string) :
  String.eqb ((a +:+ "//") +:+ b) "" = false.
Proof. by destruct a. Qed.

Lemma filter_indexed_subset {A : Type} (f : A -> nat -> list A -> bool)
  (l : list A) (x : A) :
  x ∈ filter_indexed f l -> x ∈ l.
Proof.
  unfold filter_indexed. rewrite list_elem_of_fmap.
  intros ([i y] & -> & Hin). simpl.
  rewrite list_elem_of_In, filter_In, <- list_elem_of_In in Hin.
  destruct Hin as [Hin _].
  apply elem_of_lookup_imap in Hin as (j & z & Heq & Hlookup).
  injection Heq as -> ->. by eapply list_elem_of_lookup_2.
Qed.

(** *** The identifier of a template part *)

(** X4. The identifier of a template part is truthy exactly when theme
    and slug both are; it is never the empty string. *)
Theorem createTemplatePartId_truthy (theme slug : value) :
  truthy (createTemplatePartId theme slug) = truthy theme && truthy slug
  /\ createTemplatePartId theme slug <> VStr "".
Proof.
  rewrite createTemplatePartId_cases.
  destruct (truthy theme && truthy slug); simpl.
  - split; [by rewrite append_separator_nonempty|].
    intros [= Hempty]. pose proof (append_separator_nonempty
      (to_string theme) (to_string slug)) as Hne.
    rewrite Hempty in Hne. discriminate.
  - split; [reflexivity | discriminate].
Qed.

(** *** The defaults of a template-part pattern *)

(** X5. A template-part pattern always has truthy keywords: those of the
    record when they are truthy, an empty array otherwise. Its description
    is that of the record when truthy and the empty string otherwise, and
    its categories are the one-element array of the area of the record. *)
Theorem templatePartToPattern_defaults (templatePart : TemplatePart.t) :
  let pattern := templatePartToPattern templatePart in
  truthy (get pattern "keywords") = true
  /\ get pattern "keywords"
     = (if truthy (TemplatePart.keywords templatePart)
        then TemplatePart.keywords templatePart
        else VArr [])
  /\ get pattern "description"
     = (if truthy (TemplatePart.description templatePart)
        then TemplatePart.description templatePart
        else VStr "")
  /\ get pattern "description" <> VUndefined
  /\ get pattern "description" <> VNull
  /\ get pattern "categories" = VArr [ TemplatePart.area templatePart ].
Proof.
  intros pattern.
  assert (Hkeywords : get pattern "keywords"
            = logical_or (TemplatePart.keywords templatePart) (VArr []))
    by by_evaluation.
  assert (Hdescription : get pattern "description"
            = logical_or (TemplatePart.description templatePart) (VStr ""))
    by by_evaluation.
  rewrite Hkeywords, Hdescription. unfold logical_or.
  split; [by destruct (truthy (TemplatePart.keywords templatePart)) eqn:Hk|].
  split; [reflexivity|]. split; [reflexivity|].
  split; [|split; [|by_evaluation]];
    destruct (truthy (TemplatePart.description templatePart)) eqn:Hd;
    try discriminate; by apply truthy_defined.
Qed.

(** *** The category callback of the template parts *)

Lemma templatePartHasCategory_pattern (templatePartAreas : list value)
  (templatePart : TemplatePart.t) (category : value) :
  templatePartHasCategory templatePartAreas
    (templatePartToPattern templatePart) category
  = Some (VBool
      (if negb (strict_eq category (VStr "uncategorized"))
       then strict_eq (TemplatePart.area templatePart) category
       else strict_eq (TemplatePart.area templatePart) category
            || negb (includes templatePartAreas (TemplatePart.area templatePart)))).
Proof.
  unfold templatePartHasCategory.
  assert (Hread : read (get (templatePartToPattern templatePart) "templatePart")
                       "area"
                  = Some (TemplatePart.area templatePart)) by by_evaluation.
  rewrite Hread. simpl.
  by destruct (negb (strict_eq category (VStr "uncategorized"))).
Qed.

(** X1. No template part is lost: on a template-part pattern the category
    callback never throws, and the pattern is in the category of some known
    area or in the uncategorized one; a part whose area is not a known one
    is uncategorized, as is every part when no area is known. *)
Theorem templatePartHasCategory_covers (templatePartAreas : list value)
  (templatePart : TemplatePart.t) :
  let item := templatePartToPattern templatePart in
  (forall category : value,
     is_Some (templatePartHasCategory templatePartAreas item category))
  /\ (exists category : value,
        (category ∈ templatePartAreas \/ category = VStr "uncategorized")
        /\ templatePartHasCategory templatePartAreas item category
           = Some (VBool true))
  /\ (includes templatePartAreas (TemplatePart.area templatePart) = false ->
      templatePartHasCategory templatePartAreas item (VStr "uncategorized")
      = Some (VBool true))
  /\ templatePartHasCategory [] item (VStr "uncategorized") = Some (VBool true).
Proof.
  intros item. subst item.
  assert (Horphan : forall areas,
             includes areas (TemplatePart.area templatePart) = false ->
             templatePartHasCategory areas (templatePartToPattern templatePart)
               (VStr "uncategorized")
             = Some (VBool true)).
  { intros areas Hunknown. rewrite templatePartHasCategory_pattern, Hunknown.
    simpl. by rewrite orb_true_r. }
  split; [|split; [|split]].
  - intros category. rewrite templatePartHasCategory_pattern. eauto.
  - destruct (includes templatePartAreas (TemplatePart.area templatePart))
      eqn:Hknown.
    + apply includes_true in Hknown as (known & Hin & Heq).
      exists known. split; [by left|].
      rewrite templatePartHasCategory_pattern, (strict_eq_sym _ known), Heq.
      by destruct (negb (strict_eq known (VStr "uncategorized"))).
    + exists (VStr "uncategorized"). split; [by right | by apply Horphan].
  - apply Horphan.
  - by apply Horphan.
Qed.

(** X2. A template-part pattern is in the category named by a string
    exactly when the area of its record is that string, or when the
    category is uncategorized and the area is not a known one. *)
Theorem templatePartHasCategory_characterised (templatePartAreas : list value)
  (templatePart : TemplatePart.t) (category : string) :
  templatePartHasCategory templatePartAreas
    (templatePartToPattern templatePart) (VStr category)
  = Some (VBool true)
  <-> TemplatePart.area templatePart = VStr category
      \/ (category = "uncategorized"
          /\ includes templatePartAreas (TemplatePart.area templatePart) = false).
Proof.
  rewrite templatePartHasCategory_pattern. simpl.
  destruct (String.eqb category "uncategorized") eqn:Hcategory; simpl.
  - apply String.eqb_eq in Hcategory. split.
    + intros [= Hin]. apply orb_true_iff in Hin as [Harea | Hunknown].
      * left. by apply strict_eq_VStr.
      * right. split; [done|]. by apply negb_true_iff.
    + intros [Harea | [_ Hunknown]]; f_equal; f_equal.
      * apply strict_eq_VStr in Harea. by rewrite Harea.
      * rewrite Hunknown. simpl. apply orb_true_r.
  - apply String.eqb_neq in Hcategory. split.
    + intros [= Harea]. left. by apply strict_eq_VStr.
    + intros [Harea | [Heq _]]; [|done].
      apply strict_eq_VStr in Harea. by rewrite Harea.
Qed.

(** X3. The category callback of the template parts reads
    item.templatePart.area: on an item without a templatePart property it
    throws, and a user pattern is such an item. *)
Theorem templatePartHasCategory_throws (templatePartAreas : list value)
  (category : value) :
  (forall item : object,
     item !! "templatePart" = None ->
     templatePartHasCategory templatePartAreas item category = None)
  /\ (forall (patternBlock : PatternPost.t)
             (categories : nullable (gmap Z Category.t)),
        templatePartHasCategory templatePartAreas
          (patternBlockToPattern patternBlock categories) category
        = None).
Proof.
  assert (Hmissing : forall item : object,
             item !! "templatePart" = None ->
             templatePartHasCategory templatePartAreas item category = None).
  { intros item Hnone. unfold templatePartHasCategory, get. by rewrite Hnone. }
  split; [exact Hmissing|].
  intros patternBlock categories. apply Hmissing.
  unfold patternBlockToPattern.
  destruct (PatternPost.wp_pattern_category patternBlock); by_evaluation.
Qed.

(** *** The fields of a user pattern *)

(** The fields of a user pattern follow its record whatever its
    categories are: id is the id of the post, name its slug, title its
    title.raw, type the constant USER_PATTERNS and blocks the parsed
    content.raw. *)
Theorem patternBlockToPattern_fields (patternBlock : PatternPost.t)
  (categories : nullable (gmap Z Category.t)) :
  let pattern := patternBlockToPattern patternBlock categories in
  get pattern "id" = PatternPost.id patternBlock
  /\ get pattern "name" = PatternPost.slug patternBlock
  /\ get pattern "title" = PatternPost.title_raw patternBlock
  /\ get pattern "type" = VStr USER_PATTERNS
  /\ get pattern "blocks"
     = parse (PatternPost.content_raw patternBlock) skipMigrationLogs.
Proof.
  intros pattern. subst pattern. unfold patternBlockToPattern.
  destruct (PatternPost.wp_pattern_category patternBlock);
    (split; [|split; [|split; [|split]]]); by_evaluation.
Qed.

(** X6. A user pattern is fully synced by default: its syncStatus is
    SYNC_TYPES.full exactly when the wp_pattern_sync_status of its record
    is falsy or is SYNC_TYPES.full itself. *)
Theorem patternBlockToPattern_synced_by_default (patternBlock : PatternPost.t)
  (categories : nullable (gmap Z Category.t)) :
  get (patternBlockToPattern patternBlock categories) "syncStatus"
  = get SYNC_TYPES "full"
  <-> truthy (PatternPost.wp_pattern_sync_status patternBlock) = false
      \/ PatternPost.wp_pattern_sync_status patternBlock = get SYNC_TYPES "full".
Proof.
  assert (Hsync : get (patternBlockToPattern patternBlock categories) "syncStatus"
                  = logical_or (PatternPost.wp_pattern_sync_status patternBlock)
                               (get SYNC_TYPES "full")).
  { unfold patternBlockToPattern.
    destruct (PatternPost.wp_pattern_category patternBlock); by_evaluation. }
  rewrite Hsync. unfold logical_or.
  destruct (truthy (PatternPost.wp_pattern_sync_status patternBlock)).
  - split; [by right | by intros [? | ?]].
  - split; [by left | done].
Qed.

(** *** Theme patterns *)

Lemma selectThemePatterns_elements (select : Select.t) :
  elements (Result.patterns (selectThemePatterns select))
  = map selectThemePatterns_map
      (List.filter
         (fun pattern => negb (strict_eq (get pattern "inserter") (VBool false)))
         (filter_indexed filterOutDuplicatesByName
            (List.filter
               (fun pattern =>
                  negb (includes CORE_PATTERN_SOURCES (get pattern "source")))
               (selectThemePatterns_sources select)))).
Proof. reflexivity. Qed.

Lemma selectThemePatterns_elem (select : Select.t) (item : object) :
  item ∈ elements (Result.patterns (selectThemePatterns select)) ->
  exists pattern : object,
    pattern ∈ selectThemePatterns_sources select
    /\ includes CORE_PATTERN_SOURCES (get pattern "source") = false
    /\ strict_eq (get pattern "inserter") (VBool false) = false
    /\ item = selectThemePatterns_map pattern.
Proof.
  rewrite selectThemePatterns_elements, list_elem_of_fmap.
  intros (pattern & -> & Hin). exists pattern.
  rewrite list_elem_of_In, filter_In, <- list_elem_of_In in Hin.
  destruct Hin as [Hin Hinserter].
  apply filter_indexed_subset in Hin.
  rewrite list_elem_of_In, filter_In, <- list_elem_of_In in Hin.
  destruct Hin as [Hin Hsource].
  by rewrite negb_true_iff in Hinserter, Hsource.
Qed.

Lemma selectThemePatterns_map_other (pattern : object) (k : string) :
  k <> "keywords" -> k <> "type" -> k <> "blocks" ->
  selectThemePatterns_map pattern !! k = pattern !! k.
Proof.
  intros Hkeywords Htype Hblocks. unfold selectThemePatterns_map, literal. simpl.
  rewrite !lookup_insert_ne by done. by rewrite (right_id ∅ (∪)).
Qed.

Lemma selectThemePatterns_map_written (pattern : object) :
  get (selectThemePatterns_map pattern) "keywords"
  = logical_or (get pattern "keywords") (VArr [])
  /\ get (selectThemePatterns_map pattern) "type" = VStr "pattern"
  /\ get (selectThemePatterns_map pattern) "blocks"
     = parse (get pattern "content") skipMigrationLogs.
Proof.
  unfold selectThemePatterns_map, literal, get. simpl.
  split; [|split].
  - by rewrite !lookup_insert_ne, lookup_insert_eq by done.
  - by rewrite lookup_insert_ne, lookup_insert_eq by done.
  - by rewrite lookup_insert_eq.
Qed.

(** X7. What [selectThemePatterns] returns: every pattern has the type
    pattern, truthy keywords and the parsed content as its blocks; none
    has a source among CORE_PATTERN_SOURCES, and none has inserter set to
    false. The result never reports resolving. *)
Theorem selectThemePatterns_sound (select : Select.t) :
  Forall
    (fun item =>
       get item "type" = VStr "pattern"
       /\ truthy (get item "keywords") = true
       /\ get item "blocks" = parse (get item "content") skipMigrationLogs
       /\ includes CORE_PATTERN_SOURCES (get item "source") = false
       /\ get item "inserter" <> VBool false)
    (elements (Result.patterns (selectThemePatterns select)))
  /\ Result.isResolving (selectThemePatterns select) = false.
Proof.
  split; [|reflexivity].
  apply Forall_forall. intros item Hin.
  apply selectThemePatterns_elem in Hin
    as (pattern & _ & Hsource & Hinserter & ->).
  destruct (selectThemePatterns_map_written pattern)
    as (Hkeywords & Htype & Hblocks).
  assert (Hother : forall k, k <> "keywords" -> k <> "type" -> k <> "blocks" ->
                     get (selectThemePatterns_map pattern) k = get pattern k).
  { intros k ? ? ?. unfold get. by rewrite selectThemePatterns_map_other. }
  split; [exact Htype|]. split.
  { rewrite Hkeywords. unfold logical_or.
    by destruct (truthy (get pattern "keywords")) eqn:E. }
  split; [by rewrite Hblocks, Hother|].
  split; [by rewrite Hother|].
  rewrite Hother by done. intros Hfalse. by rewrite Hfalse in Hinserter.
Qed.

(** X8. [selectThemePatterns] adds to the patterns of the store and
    changes nothing else: every pattern it returns stems from a pattern of
    the settings or of the REST API and has, under every key other than
    keywords, type and blocks, exactly what that pattern has there (the
    key is missing when it is missing there). *)
Theorem selectThemePatterns_preserves (select : Select.t) :
  Forall
    (fun item =>
       exists pattern : object,
         pattern ∈ selectThemePatterns_sources select
         /\ forall k : string,
              k <> "keywords" -> k <> "type" -> k <> "blocks" ->
              item !! k = pattern !! k)
    (elements (Result.patterns (selectThemePatterns select))).
Proof.
  apply Forall_forall. intros item Hin.
  apply selectThemePatterns_elem in Hin as (pattern & Hin & _ & _ & ->).
  exists pattern. split; [exact Hin|].
  intros k. apply selectThemePatterns_map_other.
Qed.

(** X9. The additional block patterns of the settings replace the block
    patterns of the theme as soon as they are defined, also when they are
    an empty list: two stores with the same defined additional patterns
    and the same REST patterns give the same theme patterns, whatever
    their __experimentalBlockPatterns are. *)
Theorem selectThemePatterns_additional_first (s1 s2 : Select.t)
  (additional : list object) :
  Settings.__experimentalAdditionalBlockPatterns
    (EditSiteStore.getSettings (Select.editSiteStore s1))
  = Defined additional ->
  Settings.__experimentalAdditionalBlockPatterns
    (EditSiteStore.getSettings (Select.editSiteStore s2))
  = Defined additional ->
  CoreStore.getBlockPatterns (Select.coreStore s1)
  = CoreStore.getBlockPatterns (Select.coreStore s2) ->
  selectThemePatterns s1 = selectThemePatterns s2
  /\ selectThemePatterns_sources s1
     = (additional
        ++ or_else id (CoreStore.getBlockPatterns (Select.coreStore s1)) [])%list.
Proof.
  intros Hfirst Hsecond Hrest.
  unfold selectThemePatterns, selectThemePatterns_sources.
  by rewrite Hfirst, Hsecond, Hrest.
Qed.

(** *** Where the selected patterns come from *)

(** X10. Every pattern [selectTemplatePartsAsPatterns] returns is the
    pattern of a template-part record of the store. *)
Theorem selectTemplatePartsAsPatterns_sound (select : Select.t)
  (options : Options.t) :
  Forall
    (fun item =>
       exists (records : list TemplatePart.t) (templatePart : TemplatePart.t),
         CoreStore.getEntityRecords_template_parts (Select.coreStore select)
           "postType" (VStr TEMPLATE_PARTS) {| per_page := -1 |}
         = Defined records
         /\ templatePart ∈ records
         /\ item = templatePartToPattern templatePart)
    (elements (Result.patterns (selectTemplatePartsAsPatterns select options))).
Proof.
  apply Forall_forall. intros item Hin.
  unfold selectTemplatePartsAsPatterns in Hin. simpl in Hin.
  apply searchItems_subset in Hin.
  destruct (CoreStore.getEntityRecords_template_parts _ _ _ _)
    as [| |records]; simpl in Hin; try by apply not_elem_of_nil in Hin.
  apply list_elem_of_fmap in Hin as (templatePart & -> & Hin).
  by exists records, templatePart.
Qed.

(** X11. Every pattern [selectUserPatterns] returns is the pattern of a
    pattern post of the store under the category map of the store. The
    result always carries the pattern categories of the store, also when
    there are no records. *)
Theorem selectUserPatterns_sound (select : Select.t) (options : Options.t) :
  let core := Select.coreStore select in
  let categories := CoreStore.getUserPatternCategories core in
  Forall
    (fun item =>
       exists (records : list PatternPost.t) (record : PatternPost.t),
         CoreStore.getEntityRecords_patterns core
           "postType" (VStr USER_PATTERNS) {| per_page := -1 |}
         = Defined records
         /\ record ∈ records
         /\ item = patternBlockToPattern record
                     (UserPatternCategories.patternCategoriesMap categories))
    (elements (Result.patterns (selectUserPatterns select options)))
  /\ Result.categories (selectUserPatterns select options)
     = Some (UserPatternCategories.patternCategories categories).
Proof.
  intros core categories. split; [|reflexivity].
  apply Forall_forall. intros item Hin.
  unfold selectUserPatterns in Hin. fold core categories in Hin.
  simpl in Hin. apply searchItems_subset in Hin.
  assert (Hrecords : item ∈ elements
            match CoreStore.getEntityRecords_patterns core
                    "postType" (VStr USER_PATTERNS) {| per_page := -1 |} with
            | Defined records =>
                Arr (map (fun record =>
                            patternBlockToPattern record
                              (UserPatternCategories.patternCategoriesMap categories))
                         records)
            | Null | Undefined => EMPTY_PATTERN_LIST
            end).
  { destruct (truthy (Options.syncStatus options)); [|exact Hin].
    simpl in Hin. rewrite list_elem_of_In, filter_In, <- list_elem_of_In in Hin.
    by destruct Hin. }
  destruct (CoreStore.getEntityRecords_patterns _ _ _ _) as [| |records];
    simpl in Hrecords; try by apply not_elem_of_nil in Hrecords.
  apply list_elem_of_fmap in Hrecords as (record & -> & Hrecord).
  by exists records, record.
Qed.

Lemma selectPatterns_search (select : Select.t) (options : Options.t) :
  selectPatterns select options
  = {| Result.patterns :=
         Arr (searchItems
                (selectPatterns_candidates select (Options.syncStatus options))
                (param_default (Options.search options) (VStr ""))
                (selectPatterns_config (Options.categoryId options)));
       Result.isResolving := false;
       Result.categories := None |}.
Proof.
  unfold selectPatterns, selectPatterns_candidates, selectPatterns_config.
  by destruct (truthy (Options.categoryId options)).
Qed.

(** X12. Every pattern [selectPatterns] returns is a theme pattern or a
    user pattern, the latter selected without a search term and without a
    sync status. The result never reports resolving and carries no
    categories, whatever [selectUserPatterns] reports. *)
Theorem selectPatterns_sound (select : Select.t) (options : Options.t) :
  Forall
    (fun item =>
       item ∈ elements (Result.patterns (selectThemePatterns select))
       \/ item ∈ elements (Result.patterns (selectUserPatterns select Options.none)))
    (elements (Result.patterns (selectPatterns select options)))
  /\ Result.isResolving (selectPatterns select options) = false
  /\ Result.categories (selectPatterns select options) = None.
Proof.
  rewrite selectPatterns_search. simpl. split; [|done].
  apply Forall_forall. intros item Hin.
  apply searchItems_subset in Hin. unfold selectPatterns_candidates in Hin.
  apply elem_of_app.
  destruct (truthy (Options.syncStatus options)); [|exact Hin].
  rewrite list_elem_of_In, filter_In, <- list_elem_of_In in Hin.
  by destruct Hin.
Qed.

(** X13. Filtering by sync status hides the theme patterns: when no
    pattern of the store carries a syncStatus property and the syncStatus
    option is truthy, every pattern [selectPatterns] returns is a user
    pattern. *)
Theorem selectPatterns_syncStatus_hides_theme_patterns
  (select : Select.t) (options : Options.t) :
  truthy (Options.syncStatus options) = true ->
  Forall (fun pattern : object => pattern !! "syncStatus" = None)
         (selectThemePatterns_sources select) ->
  Forall
    (fun item =>
       item ∈ elements (Result.patterns (selectUserPatterns select Options.none)))
    (elements (Result.patterns (selectPatterns select options))).
Proof.
  intros Htruthy Hsources. rewrite selectPatterns_search. simpl.
  apply Forall_forall. intros item Hin.
  apply searchItems_subset in Hin. unfold selectPatterns_candidates in Hin.
  rewrite Htruthy in Hin.
  rewrite list_elem_of_In, filter_In, <- list_elem_of_In in Hin.
  destruct Hin as [Hin Hsync].
  apply elem_of_app in Hin as [Htheme | Huser]; [|exact Huser].
  exfalso.
  apply selectThemePatterns_elem in Htheme as (pattern & Hin & _ & _ & ->).
  rewrite Forall_forall in Hsources. specialize (Hsources pattern Hin).
  unfold get in Hsync.
  rewrite selectThemePatterns_map_other, Hsources in Hsync by done.
  simpl in Hsync. destruct (Options.syncStatus options); discriminate.
Qed.

(** *** The category callbacks of [selectPatterns] *)

(** X14. How [selectPatterns] files a user pattern: without a category id
    the callback holds of it exactly when its record has no categories;
    with a category id the callback never throws, and answers truthy
    exactly when the category asked for is one of the mapped categories of
    the record. *)
Theorem selectPatterns_files_user_patterns
  (patternBlock : PatternPost.t) (categories : nullable (gmap Z Category.t))
  (categoryId currentCategory : value) :
  let item := patternBlockToPattern patternBlock categories in
  let ids := PatternPost.wp_pattern_category patternBlock in
  let hasCategory := SearchConfig.hasCategory (selectPatterns_config categoryId) in
  (truthy categoryId = false ->
   hasCategory item currentCategory = Some (VBool (bool_decide (ids = []))))
  /\ (truthy categoryId = true ->
      exists answer : value,
        hasCategory item currentCategory = Some answer
        /\ (truthy answer = true
            <-> exists id : Z,
                  id ∈ ids
                  /\ strict_eq (slug_or_id categories id) currentCategory = true)).
Proof.
  intros item ids hasCategory. subst hasCategory item.
  unfold selectPatterns_config, hasOwnProperty, get.
  split; intros ->; simpl; rewrite patternBlockToPattern_categories; fold ids.
  - by destruct ids.
  - destruct ids as [|id ids']; simpl.
    + eexists. split; [reflexivity|]. simpl. split; [done|].
      intros (? & Hin & _). by apply not_elem_of_nil in Hin.
    + eexists. split; [reflexivity|]. simpl.
      change (includes (map (slug_or_id categories) (id :: ids')) currentCategory
              = true
              <-> (exists id0, id0 ∈ id :: ids'
                     /\ strict_eq (slug_or_id categories id0) currentCategory = true)).
      rewrite includes_true. split.
      * intros (slug & Hin & Heq).
        apply list_elem_of_fmap in Hin as (id0 & -> & Hin). eauto.
      * intros (id0 & Hin & Heq). exists (slug_or_id categories id0).
        split; [|done]. apply list_elem_of_fmap. eauto.
Qed.

(** X15. How [selectPatterns] files a theme pattern: a pattern of the
    store without a categories key is kept by the callback exactly in the
    listing without a category id, and a pattern whose categories are an
    empty array is kept in no listing at all. *)
Theorem selectPatterns_files_theme_patterns
  (pattern : object) (categoryId currentCategory : value) :
  let item := selectThemePatterns_map pattern in
  let hasCategory := SearchConfig.hasCategory (selectPatterns_config categoryId) in
  (pattern !! "categories" = None ->
   exists answer : value,
     hasCategory item currentCategory = Some answer
     /\ truthy answer = negb (truthy categoryId))
  /\ (pattern !! "categories" = Some (VArr []) ->
      exists answer : value,
        hasCategory item currentCategory = Some answer
        /\ truthy answer = false).
Proof.
  intros item hasCategory. subst hasCategory item.
  unfold selectPatterns_config, hasOwnProperty, get.
  split; intros Hcategories;
    destruct (truthy categoryId); simpl;
    rewrite selectThemePatterns_map_other, Hcategories by done;
    eexists; (split; [reflexivity | reflexivity]).
Qed.

(** *** The branches of the hook *)

(** X16. [usePatterns] selects by category type: template parts for
    TEMPLATE_PARTS, patterns for PATTERNS, and user patterns for
    USER_PATTERNS, each on the current store with the search term
    defaulted to the empty string. Where two of the constants coincide the
    earlier branch wins. *)
Theorem usePatterns_dispatch (categoryId : value) (options : Options.t) :
  let search := param_default (Options.search options) (VStr "") in
  let syncStatus := Options.syncStatus options in
  usePatterns (VStr TEMPLATE_PARTS) categoryId options
  = selectTemplatePartsAsPatterns store
      {| Options.categoryId := categoryId;
         Options.search := search;
         Options.syncStatus := VUndefined |}
  /\ (PATTERNS <> TEMPLATE_PARTS ->
      usePatterns (VStr PATTERNS) categoryId options
      = selectPatterns store
          {| Options.categoryId := categoryId;
             Options.search := search;
             Options.syncStatus := syncStatus |})
  /\ (USER_PATTERNS <> TEMPLATE_PARTS -> USER_PATTERNS <> PATTERNS ->
      usePatterns (VStr USER_PATTERNS) categoryId options
      = selectUserPatterns store
          {| Options.categoryId := VUndefined;
             Options.search := search;
             Options.syncStatus := syncStatus |}).
Proof.
  intros search syncStatus. unfold usePatterns. rewrite !useSelect_runs.
  simpl. rewrite !String.eqb_refl.
  split; [reflexivity|]. split.
  - intros Hne. apply String.eqb_neq in Hne. by rewrite Hne.
  - intros Hne1 Hne2. apply String.eqb_neq in Hne1, Hne2.
    by rewrite Hne1, Hne2.
Qed.

(** X17. What [usePatterns] does not look at: the sync status never
    matters for template parts, the category id never matters for user
    patterns, and a missing search term is the same as the empty string
    for every category type. *)
Theorem usePatterns_ignores (categoryType categoryId categoryId' : value)
  (options options' : Options.t) :
  param_default (Options.search options) (VStr "")
  = param_default (Options.search options') (VStr "") ->
  (usePatterns (VStr TEMPLATE_PARTS) categoryId options
   = usePatterns (VStr TEMPLATE_PARTS) categoryId options')
  /\ (USER_PATTERNS <> TEMPLATE_PARTS -> USER_PATTERNS <> PATTERNS ->
      Options.syncStatus options = Options.syncStatus options' ->
      usePatterns (VStr USER_PATTERNS) categoryId options
      = usePatterns (VStr USER_PATTERNS) categoryId' options')
  /\ (Options.syncStatus options = Options.syncStatus options' ->
      usePatterns categoryType categoryId options
      = usePatterns categoryType categoryId options').
Proof.
  intros Hsearch. unfold usePatterns. rewrite !useSelect_runs, Hsearch.
  simpl. rewrite !String.eqb_refl.
  split; [reflexivity|]. split.
  - intros Hne1 Hne2 Hsync. apply String.eqb_neq in Hne1, Hne2.
    by rewrite Hne1, Hne2, Hsync.
  - by intros ->.
Qed.

End UsePatterns.

(** ** Properties of the quote transforms *)

Section QuoteTransformsProperties.

Variable serialize : list Block.t -> value.
Variable parseWithAttributeSchema : value -> value -> list object.

Lemma all_paragraphs_spec (blocks : list Block.t) :
  forallb (fun inner => String.eqb (Block.name inner) "core/paragraph") blocks = true
  <-> Forall (fun inner => Block.name inner = "core/paragraph") blocks.
Proof.
  induction blocks as [|block blocks IH]; simpl.
  - split; [constructor | reflexivity].
  - rewrite andb_true_iff, IH, String.eqb_eq. split.
    + intros [Hname Hrest]. by constructor.
    + intros Hall. by inversion Hall.
Qed.

(** C3. The entry of [transforms.to] for core/pullquote has an [isMatch]
    predicate, which holds of a quote block exactly when every inner block
    of the quote is named core/paragraph; it holds of a quote without
    inner blocks. *)
Theorem to_pullquote_isMatch :
  exists (entry : Transform.t) (isMatch : object -> Block.t -> bool),
    entry_for "core/pullquote"
      (Transforms.to (transforms serialize parseWithAttributeSchema))
    = Some entry
    /\ Transform.isMatch entry = Some isMatch
    /\ forall (attributes : object) (block : Block.t),
         (isMatch attributes block = true
          <-> Forall (fun inner => Block.name inner = "core/paragraph")
                     (Block.innerBlocks block))
         /\ (Block.innerBlocks block = [] -> isMatch attributes block = true).
Proof.
  exists (to_pullquote serialize), (fun _ block =>
    forallb (fun inner => String.eqb (Block.name inner) "core/paragraph")
            (Block.innerBlocks block)).
  split; [reflexivity|]. split; [reflexivity|].
  intros attributes block. split.
  - apply all_paragraphs_spec.
  - intros ->. reflexivity.
Qed.

(** C9. The entry of [transforms.to] for core/group turns a quote into a
    group block without attributes whose inner blocks are those of the
    quote, in their order, followed by one core/paragraph block holding the
    attribution exactly when the attribution is truthy. *)
Theorem to_group_transform :
  exists entry : Transform.t,
    entry_for "core/group"
      (Transforms.to (transforms serialize parseWithAttributeSchema))
    = Some entry
    /\ forall (attributes : object) (innerBlocks : list Block.t),
         let attribution := get attributes "attribution" in
         let group := Transform.transform entry attributes innerBlocks in
         Block.name group = "core/group"
         /\ Block.attributes group = ∅
         /\ Block.innerBlocks group
            = (innerBlocks
               ++ if truthy attribution
                  then [ createBlock "core/paragraph"
                           {[ "content" := attribution ]} [] ]
                  else [])%list
         /\ take (length innerBlocks) (Block.innerBlocks group) = innerBlocks
         /\ (length (Block.innerBlocks group) = S (length innerBlocks)
             <-> truthy attribution = true)
         /\ (Block.innerBlocks group = innerBlocks
             <-> truthy attribution = false).
Proof.
  exists to_group. split; [reflexivity|].
  intros attributes innerBlocks attribution group.
  subst group. unfold to_group. simpl. fold attribution.
  split; [reflexivity|]. split; [reflexivity|].
  destruct (truthy attribution) eqn:Htruthy.
  - split; [reflexivity|].
    split; [by rewrite take_app_length|].
    split; [by rewrite length_app, Nat.add_1_r|].
    split; [|done]. intros Hsame.
    apply (f_equal length) in Hsame. rewrite length_app in Hsame.
    simpl in Hsame. lia.
  - split; [by rewrite app_nil_r|].
    split; [by rewrite firstn_all|].
    split; [|done]. split; [lia|done].
Qed.

(** X18. Group and quote, there and back. A group turned into a quote and
    back is a group with the same inner blocks. A quote turned into a
    group and back keeps its inner blocks and loses its attribution
    attribute: a truthy attribution comes back as a last paragraph. *)
Theorem group_quote_round_trips (attributes : object)
  (innerBlocks : list Block.t) :
  let quote_of_group := Transform.transform from_group attributes innerBlocks in
  let group_of_quote := Transform.transform to_group attributes innerBlocks in
  let quote_again :=
    Transform.transform from_group
      (Block.attributes group_of_quote) (Block.innerBlocks group_of_quote) in
  Transform.transform to_group
    (Block.attributes quote_of_group) (Block.innerBlocks quote_of_group)
  = createBlock "core/group" ∅ innerBlocks
  /\ Block.name quote_again = "core/quote"
  /\ Block.attributes quote_again = ∅
  /\ Block.innerBlocks quote_again
     = (innerBlocks
        ++ if truthy (get attributes "attribution")
           then [ createBlock "core/paragraph"
                    {[ "content" := get attributes "attribution" ]} [] ]
           else [])%list.
Proof.
  simpl. split; [reflexivity|]. split; [reflexivity|]. split; [reflexivity|].
  destruct (truthy (get attributes "attribution")); [reflexivity|].
  by rewrite app_nil_r.
Qed.

Lemma from_pullquote_innerBlocks (attributes : object)
  (innerBlocks : list Block.t) :
  Block.innerBlocks
    (Transform.transform (from_pullquote parseWithAttributeSchema)
       attributes innerBlocks)
  = map (fun paragraph =>
           createBlock "core/paragraph"
             {[ "content" := get paragraph "content" ]} [])
        (parseWithAttributeSchema (get attributes "value") paragraphsSchema).
Proof. reflexivity. Qed.

(** X19. A pullquote always turns into a quote that can be turned back:
    the quote has one core/paragraph block without inner blocks per
    paragraph parsed from the value of the pullquote, so the isMatch of
    the pullquote entry holds of it; its attribution is the citation. The
    inner blocks of the pullquote are not looked at. *)
Theorem from_pullquote_transform (attributes : object)
  (innerBlocks : list Block.t) :
  let quote :=
    Transform.transform (from_pullquote parseWithAttributeSchema)
      attributes innerBlocks in
  let paragraphs :=
    parseWithAttributeSchema (get attributes "value") paragraphsSchema in
  Block.name quote = "core/quote"
  /\ get (Block.attributes quote) "attribution" = get attributes "citation"
  /\ length (Block.innerBlocks quote) = length paragraphs
  /\ (forall (i : nat) (paragraph : object),
        paragraphs !! i = Some paragraph ->
        Block.innerBlocks quote !! i
        = Some (createBlock "core/paragraph"
                  {[ "content" := get paragraph "content" ]} []))
  /\ (forall isMatch : object -> Block.t -> bool,
        Transform.isMatch (to_pullquote serialize) = Some isMatch ->
        isMatch (Block.attributes quote) quote = true)
  /\ quote
     = Transform.transform (from_pullquote parseWithAttributeSchema)
         attributes [].
Proof.
  intros quote paragraphs.
  assert (Hinner : Block.innerBlocks quote
            = map (fun paragraph =>
                     createBlock "core/paragraph"
                       {[ "content" := get paragraph "content" ]} [])
                  paragraphs) by apply from_pullquote_innerBlocks.
  split; [reflexivity|]. split; [by_evaluation|].
  split; [by rewrite Hinner, length_map|].
  split; [|split; [|reflexivity]].
  - intros i paragraph Hi. by rewrite Hinner, list_lookup_fmap, Hi.
  - intros isMatch [= <-]. apply all_paragraphs_spec. rewrite Hinner.
    apply Forall_forall. intros inner Hin.
    by apply list_elem_of_fmap in Hin as (paragraph & -> & _).
Qed.

(** X20. Quote and pullquote exchange attribution and citation. The
    pullquote made of a quote has no inner blocks, the serialized inner
    blocks of the quote as its value and the attribution as its citation;
    turned back, it gives a quote with the same attribution whose
    paragraphs are those parsed from the serialized blocks. A pullquote
    turned into a quote and back keeps its citation. *)
Theorem quote_pullquote_round_trips (attributes : object)
  (innerBlocks : list Block.t) :
  let pullquote :=
    Transform.transform (to_pullquote serialize) attributes innerBlocks in
  let quote_again :=
    Transform.transform (from_pullquote parseWithAttributeSchema)
      (Block.attributes pullquote) (Block.innerBlocks pullquote) in
  let quote_of_pullquote :=
    Transform.transform (from_pullquote parseWithAttributeSchema)
      attributes innerBlocks in
  let pullquote_again :=
    Transform.transform (to_pullquote serialize)
      (Block.attributes quote_of_pullquote)
      (Block.innerBlocks quote_of_pullquote) in
  Block.name pullquote = "core/pullquote"
  /\ Block.innerBlocks pullquote = []
  /\ get (Block.attributes pullquote) "value" = serialize innerBlocks
  /\ get (Block.attributes pullquote) "citation" = get attributes "attribution"
  /\ get (Block.attributes quote_again) "attribution"
     = get attributes "attribution"
  /\ Block.innerBlocks quote_again
     = map (fun paragraph =>
              createBlock "core/paragraph"
                {[ "content" := get paragraph "content" ]} [])
           (parseWithAttributeSchema (serialize innerBlocks) paragraphsSchema)
  /\ get (Block.attributes pullquote_again) "citation"
     = get attributes "citation"
  /\ get (Block.attributes pullquote_again) "value"
     = serialize (Block.innerBlocks quote_of_pullquote).
Proof.
  simpl. split; [reflexivity|]. split; [reflexivity|].
  split; [by_evaluation|]. split; [by_evaluation|]. split; [by_evaluation|].
  split; [|split; by_evaluation].
  unfold get at 2. unfold literal. simpl.
  by rewrite lookup_insert_ne, lookup_insert_eq by done.
Qed.

(** X21. The transform table knows the group and the pullquote, and no
    other block, in both directions; every entry is of type block, and
    the pullquote entry of [transforms.to] is the only one with an
    isMatch. *)
Theorem transforms_entries (blockName : string) :
  let table := transforms serialize parseWithAttributeSchema in
  (is_Some (entry_for blockName (Transforms.from table))
   <-> blockName = "core/group" \/ blockName = "core/pullquote")
  /\ (is_Some (entry_for blockName (Transforms.to table))
      <-> blockName = "core/group" \/ blockName = "core/pullquote")
  /\ Forall
       (fun entry =>
          Transform.type entry = "block"
          /\ (is_Some (Transform.isMatch entry)
              <-> Transform.blocks entry = [ "core/pullquote" ]
                  /\ entry ∈ Transforms.to table))
       (Transforms.from table ++ Transforms.to table).
Proof.
  intros table.
  assert (Hfind : forall first second : Transform.t,
             Transform.blocks first = [ "core/group" ] ->
             Transform.blocks second = [ "core/pullquote" ] ->
             is_Some (entry_for blockName [ first; second ])
             <-> blockName = "core/group" \/ blockName = "core/pullquote").
  { intros first second Hfirst Hsecond. unfold entry_for. simpl.
    rewrite Hfirst, Hsecond.
    repeat case_bool_decide; rewrite !list_elem_of_singleton in *.
    - split; [by left | eauto].
    - split; [by right | eauto].
    - split; [by intros [? ?] | by intros [? | ?]]. }
  split; [by apply Hfind|]. split; [by apply Hfind|].
  subst table. simpl.
  repeat match goal with |- Forall _ _ => constructor end;
    (split; [reflexivity|]); simpl.
  - split; [by intros [? ?] | intros [? _]; discriminate].
  - split; [by intros [? ?]|]. intros [_ Hin].
    apply list_elem_of_In in Hin as [Heq | [Heq | []]].
    + apply (f_equal Transform.blocks) in Heq. discriminate.
    + apply (f_equal Transform.isMatch) in Heq. discriminate.
  - split; [by intros [? ?] | intros [? _]; discriminate].
  - split; [|eauto]. intros _. split; [reflexivity|].
    apply list_elem_of_In. right. by left.
Qed.

End QuoteTransformsProperties.

(** ** The properties on the concrete instance *)

Local Abbreviation sample_templatePartToPattern :=
  (templatePartToPattern Sample.parse Sample.decodeEntities).
Local Abbreviation sample_patternBlockToPattern :=
  (patternBlockToPattern Sample.parse Sample.SYNC_TYPES Sample.USER_PATTERNS).
Local Abbreviation sample_selectTemplatePartsAsPatterns :=
  (selectTemplatePartsAsPatterns Sample.parse Sample.decodeEntities
     Sample.TEMPLATE_PARTS Sample.searchItems).
Local Abbreviation sample_selectUserPatterns :=
  (selectUserPatterns Sample.parse Sample.SYNC_TYPES Sample.USER_PATTERNS
     Sample.searchItems).
Local Abbreviation sample_selectPatterns :=
  (selectPatterns Sample.parse Sample.CORE_PATTERN_SOURCES Sample.SYNC_TYPES
     Sample.USER_PATTERNS Sample.filterOutDuplicatesByName Sample.searchItems).
Local Abbreviation sample_usePatterns :=
  (usePatterns Sample.parse Sample.decodeEntities Sample.useSelect
     Sample.CORE_PATTERN_SOURCES Sample.PATTERNS Sample.SYNC_TYPES
     Sample.TEMPLATE_PARTS Sample.USER_PATTERNS
     Sample.filterOutDuplicatesByName Sample.searchItems).
Local Abbreviation unsynced_only :=
  {| Options.categoryId := VUndefined;
     Options.search := VUndefined;
     Options.syncStatus := VStr "unsynced" |}.

(** The functions evaluated on the samples *)

Example header_pattern_id :
  get (sample_templatePartToPattern Sample.header) "id"
  = VStr "emptytheme//header".
Proof. by_evaluation. Qed.

Example orphan_pattern_fields :
  get (sample_templatePartToPattern Sample.orphan) "id" = VNull
  /\ get (sample_templatePartToPattern Sample.orphan) "name" = VNull
  /\ get (sample_templatePartToPattern Sample.orphan) "isCustom" = VBool true
  /\ get (sample_templatePartToPattern Sample.orphan) "description" = VStr "".
Proof. repeat split; by_evaluation. Qed.

Example hero_pattern_categories :
  get (sample_patternBlockToPattern Sample.hero (Defined Sample.categoriesMap))
      "categories"
  = VArr [ VStr "featured"; VNum 9 ]
  /\ get (sample_patternBlockToPattern Sample.hero Undefined) "categories"
     = VArr [ VNum 7; VNum 9 ].
Proof. split; by_evaluation. Qed.

Example banner_pattern_without_categories :
  hasOwnProperty
    (sample_patternBlockToPattern Sample.banner (Defined Sample.categoriesMap))
    "categories"
  = false.
Proof. by_evaluation. Qed.

Example template_parts_of_the_header_area :
  elements (Result.patterns
    (sample_selectTemplatePartsAsPatterns Sample.store
       {| Options.categoryId := VStr "header";
          Options.search := VUndefined;
          Options.syncStatus := VUndefined |}))
  = [ sample_templatePartToPattern Sample.header ].
Proof. by_evaluation. Qed.

Example unresolved_user_patterns :
  sample_selectUserPatterns Sample.unresolved Options.none
  = {| Result.patterns := Arr [];
       Result.isResolving := true;
       Result.categories :=
         Some (UserPatternCategories.patternCategories Sample.categories) |}.
Proof. by_evaluation. Qed.

Example quote_to_group_blocks :
  Transform.transform to_group
    (Block.attributes Sample.quote) (Block.innerBlocks Sample.quote)
  = createBlock "core/group" ∅
      (Block.innerBlocks Sample.quote
       ++ [ createBlock "core/paragraph" {[ "content" := VStr "Ada" ]} [] ])%list.
Proof. reflexivity. Qed.

Example quote_to_pullquote_matches (serialize : list Block.t -> value) :
  (fun isMatch =>
     ( isMatch ∅ Sample.quote,
       isMatch ∅ (createBlock "core/quote" ∅ [ createBlock "core/list" ∅ [] ]) ))
  <$> Transform.isMatch (to_pullquote serialize)
  = Some (true, false).
Proof. reflexivity. Qed.

(** The sample [searchItems] is a filter *)
Lemma sample_searchItems_subset
  (items : list object) (search : value) (config : SearchConfig.t)
  (item : object) :
  item ∈ Sample.searchItems items search config -> item ∈ items.
Proof.
  unfold Sample.searchItems. rewrite !list_elem_of_In, filter_In.
  by intros [Hin _].
Qed.

(** The field list of the specification is not the key set of a pattern:
    the pattern of the sample header has no syncStatus, the pattern of the
    sample banner has no keywords, no isCustom and no categories, and both
    have keys outside the list. *)
Lemma spec_pattern_fields_not_the_keys :
  (exists field : string,
     field ∈ spec_pattern_fields
     /\ sample_templatePartToPattern Sample.header !! field = None)
  /\ (exists field : string,
        field ∈ spec_pattern_fields
        /\ (sample_patternBlockToPattern Sample.banner
              (Defined Sample.categoriesMap)) !! field = None)
  /\ (exists field : string,
        (field ∉ spec_pattern_fields)
        /\ is_Some (sample_templatePartToPattern Sample.header !! field)).
Proof.
  split; [|split].
  - exists "syncStatus". split; [by vm_compute | by vm_compute].
  - exists "keywords". split; [by vm_compute | by vm_compute].
  - exists "description". split; [by vm_compute|].
    eexists. by_evaluation.
Qed.

(** The categories 7 and 9 of the sample hero under the sample map, which
    knows 7 only *)
Lemma patternBlockToPattern_category_slugs_sample :
  PatternPost.wp_pattern_category Sample.hero !! 0%nat = Some 7%Z
  /\ PatternPost.wp_pattern_category Sample.hero !! 1%nat = Some 9%Z
  /\ exists mapped : list value,
       (sample_patternBlockToPattern Sample.hero (Defined Sample.categoriesMap))
         !! "categories" = Some (VArr mapped)
       /\ mapped !! 0%nat = Some (VStr "featured")
       /\ mapped !! 1%nat = Some (VNum 9).
Proof.
  split; [reflexivity|]. split; [reflexivity|].
  destruct (patternBlockToPattern_category_slugs
              Sample.parse Sample.SYNC_TYPES Sample.USER_PATTERNS
              Sample.hero (Defined Sample.categoriesMap) 0 7%Z eq_refl)
    as (mapped & Hfield & Hfirst).
  destruct (patternBlockToPattern_category_slugs
              Sample.parse Sample.SYNC_TYPES Sample.USER_PATTERNS
              Sample.hero (Defined Sample.categoriesMap) 1 9%Z eq_refl)
    as (mapped' & Hfield' & Hsecond).
  exists mapped. split; [exact Hfield|]. split; [exact Hfirst|].
  rewrite Hfield in Hfield'. injection Hfield' as ->. exact Hsecond.
Defined.

(** The unresolved store: no template-part patterns and no user patterns *)
Lemma no_records_no_patterns_sample :
  missing (CoreStore.getEntityRecords_template_parts
             (Select.coreStore Sample.unresolved)
             "postType" (VStr Sample.TEMPLATE_PARTS) {| per_page := -1 |})
  /\ missing (CoreStore.getEntityRecords_patterns
                (Select.coreStore Sample.unresolved)
                "postType" (VStr Sample.USER_PATTERNS) {| per_page := -1 |})
  /\ elements (Result.patterns
                 (sample_selectTemplatePartsAsPatterns Sample.unresolved Options.none))
     = []
  /\ elements (Result.patterns
                 (sample_selectUserPatterns Sample.unresolved unsynced_only))
     = [].
Proof.
  assert (Htemplate : missing (CoreStore.getEntityRecords_template_parts
             (Select.coreStore Sample.unresolved)
             "postType" (VStr Sample.TEMPLATE_PARTS) {| per_page := -1 |}))
    by (left; reflexivity).
  assert (Huser : missing (CoreStore.getEntityRecords_patterns
             (Select.coreStore Sample.unresolved)
             "postType" (VStr Sample.USER_PATTERNS) {| per_page := -1 |}))
    by (right; reflexivity).
  split; [exact Htemplate|]. split; [exact Huser|]. split.
  - exact (proj1 (no_records_no_patterns
                    Sample.parse Sample.decodeEntities Sample.SYNC_TYPES
                    Sample.TEMPLATE_PARTS Sample.USER_PATTERNS
                    Sample.searchItems sample_searchItems_subset
                    Sample.unresolved Options.none) Htemplate).
  - exact (proj2 (no_records_no_patterns
                    Sample.parse Sample.decodeEntities Sample.SYNC_TYPES
                    Sample.TEMPLATE_PARTS Sample.USER_PATTERNS
                    Sample.searchItems sample_searchItems_subset
                    Sample.unresolved unsynced_only) Huser).
Defined.

(** Asking the sample store for unsynced patterns gives the banner *)
Lemma syncStatus_filter_sound_sample :
  truthy (Options.syncStatus unsynced_only) = true
  /\ sample_patternBlockToPattern Sample.banner (Defined Sample.categoriesMap)
     ∈ elements (Result.patterns (sample_selectPatterns Sample.store unsynced_only))
  /\ sample_patternBlockToPattern Sample.banner (Defined Sample.categoriesMap)
     ∈ elements (Result.patterns (sample_selectUserPatterns Sample.store unsynced_only))
  /\ get (sample_patternBlockToPattern Sample.banner (Defined Sample.categoriesMap))
         "syncStatus"
     = VStr "unsynced"
  /\ get (sample_patternBlockToPattern Sample.hero (Defined Sample.categoriesMap))
         "syncStatus"
     = VStr "fully".
Proof.
  assert (Hall : elements (Result.patterns
                    (sample_selectPatterns Sample.store unsynced_only))
                 = [ sample_patternBlockToPattern Sample.banner
                       (Defined Sample.categoriesMap) ])
    by by_evaluation.
  assert (Huser : elements (Result.patterns
                    (sample_selectUserPatterns Sample.store unsynced_only))
                 = [ sample_patternBlockToPattern Sample.banner
                       (Defined Sample.categoriesMap) ])
    by by_evaluation.
  pose proof (syncStatus_filter_sound
                Sample.parse Sample.CORE_PATTERN_SOURCES Sample.SYNC_TYPES
                Sample.USER_PATTERNS Sample.filterOutDuplicatesByName
                Sample.searchItems sample_searchItems_subset
                Sample.store unsynced_only
                (sample_patternBlockToPattern Sample.banner
                   (Defined Sample.categoriesMap))
                eq_refl) as (Hpatterns & _ & Hdefault).
  split; [reflexivity|].
  split; [rewrite Hall; left|].
  split; [rewrite Huser; left|].
  split.
  - apply Hpatterns. rewrite Hall. left.
  - exact (Hdefault Sample.hero (Defined Sample.categoriesMap)).
Defined.


(** [usePatterns] without a category type, and with an unknown one *)
Lemma usePatterns_other_category_type_sample :
  VUndefined <> VStr Sample.TEMPLATE_PARTS
  /\ VStr "wp_template" <> VStr Sample.PATTERNS
  /\ sample_usePatterns VUndefined (VStr "featured") Options.none = empty_result
  /\ Result.patterns (sample_usePatterns (VStr "wp_template") VUndefined unsynced_only)
     = EMPTY_PATTERN_LIST.
Proof.
  split; [discriminate|]. split; [discriminate|]. split.
  - apply (usePatterns_other_category_type
             Sample.parse Sample.decodeEntities Sample.useSelect
             Sample.CORE_PATTERN_SOURCES Sample.PATTERNS Sample.SYNC_TYPES
             Sample.TEMPLATE_PARTS Sample.USER_PATTERNS
             Sample.filterOutDuplicatesByName Sample.searchItems
             Sample.store (fun _ _ => eq_refl)
             VUndefined (VStr "featured") Options.none);
      discriminate.
  - apply (usePatterns_other_category_type
             Sample.parse Sample.decodeEntities Sample.useSelect
             Sample.CORE_PATTERN_SOURCES Sample.PATTERNS Sample.SYNC_TYPES
             Sample.TEMPLATE_PARTS Sample.USER_PATTERNS
             Sample.filterOutDuplicatesByName Sample.searchItems
             Sample.store (fun _ _ => eq_refl)
             (VStr "wp_template") VUndefined unsynced_only);
      discriminate.
Defined.

(** ** The further properties on the concrete instance *)

Local Abbreviation sample_selectThemePatterns :=
  (selectThemePatterns Sample.parse Sample.CORE_PATTERN_SOURCES
     Sample.filterOutDuplicatesByName).

Example sample_theme_patterns :
  map (fun item => (get item "name", get item "type", get item "keywords"))
      (elements (Result.patterns (sample_selectThemePatterns Sample.store)))
  = [ (VStr "emptytheme/cta", VStr "pattern", VArr []) ].
Proof. by_evaluation. Qed.

(** The settings of the overridden store define an empty list of
    additional patterns: the pattern of the theme is not selected *)
Lemma selectThemePatterns_additional_first_sample :
  sample_selectThemePatterns Sample.overridden
  = sample_selectThemePatterns Sample.themeless
  /\ elements (Result.patterns (sample_selectThemePatterns Sample.overridden)) = []
  /\ length (elements (Result.patterns (sample_selectThemePatterns Sample.store)))
     = 1%nat.
Proof.
  split; [|split; by_evaluation].
  exact (proj1 (selectThemePatterns_additional_first
                  Sample.parse Sample.CORE_PATTERN_SOURCES
                  Sample.filterOutDuplicatesByName
                  Sample.overridden Sample.themeless []
                  eq_refl eq_refl eq_refl)).
Defined.

(** The two template parts of the sample store *)
Lemma selectTemplatePartsAsPatterns_sound_sample :
  length (elements (Result.patterns
            (sample_selectTemplatePartsAsPatterns Sample.store
               {| Options.categoryId := VStr "uncategorized";
                  Options.search := VUndefined;
                  Options.syncStatus := VUndefined |})))
  = 1%nat
  /\ Forall
       (fun item =>
          exists (records : list TemplatePart.t) (templatePart : TemplatePart.t),
            CoreStore.getEntityRecords_template_parts
              (Select.coreStore Sample.store)
              "postType" (VStr Sample.TEMPLATE_PARTS) {| per_page := -1 |}
            = Defined records
            /\ templatePart ∈ records
            /\ item = sample_templatePartToPattern templatePart)
       (elements (Result.patterns
          (sample_selectTemplatePartsAsPatterns Sample.store
             {| Options.categoryId := VStr "uncategorized";
                Options.search := VUndefined;
                Options.syncStatus := VUndefined |}))).
Proof.
  split; [by_evaluation|].
  exact (selectTemplatePartsAsPatterns_sound
           Sample.parse Sample.decodeEntities Sample.TEMPLATE_PARTS
           Sample.searchItems sample_searchItems_subset Sample.store _).
Defined.

(** The two user patterns of the sample store *)
Lemma selectUserPatterns_sound_sample :
  length (elements (Result.patterns
            (sample_selectUserPatterns Sample.store Options.none)))
  = 2%nat
  /\ Forall
       (fun item =>
          exists (records : list PatternPost.t) (record : PatternPost.t),
            CoreStore.getEntityRecords_patterns (Select.coreStore Sample.store)
              "postType" (VStr Sample.USER_PATTERNS) {| per_page := -1 |}
            = Defined records
            /\ record ∈ records
            /\ item = sample_patternBlockToPattern record
                        (Defined Sample.categoriesMap))
       (elements (Result.patterns
          (sample_selectUserPatterns Sample.store Options.none)))
  /\ Result.categories (sample_selectUserPatterns Sample.unresolved Options.none)
     = Some (UserPatternCategories.patternCategories Sample.categories).
Proof.
  split; [by_evaluation|]. split.
  - exact (proj1 (selectUserPatterns_sound
                    Sample.parse Sample.SYNC_TYPES Sample.USER_PATTERNS
                    Sample.searchItems sample_searchItems_subset
                    Sample.store Options.none)).
  - exact (proj2 (selectUserPatterns_sound
                    Sample.parse Sample.SYNC_TYPES Sample.USER_PATTERNS
                    Sample.searchItems sample_searchItems_subset
                    Sample.unresolved Options.none)).
Defined.

(** The uncategorized patterns of the sample store: the banner *)
Lemma selectPatterns_sound_sample :
  length (elements (Result.patterns
            (sample_selectPatterns Sample.store Options.none)))
  = 1%nat
  /\ Forall
       (fun item =>
          item ∈ elements (Result.patterns
                             (sample_selectThemePatterns Sample.store))
          \/ item ∈ elements (Result.patterns
                                (sample_selectUserPatterns Sample.store Options.none)))
       (elements (Result.patterns
          (sample_selectPatterns Sample.store Options.none)))
  /\ Result.isResolving (sample_selectPatterns Sample.unresolved Options.none)
     = false.
Proof.
  split; [by_evaluation|]. split.
  - exact (proj1 (selectPatterns_sound
                    Sample.parse Sample.CORE_PATTERN_SOURCES Sample.SYNC_TYPES
                    Sample.USER_PATTERNS Sample.filterOutDuplicatesByName
                    Sample.searchItems sample_searchItems_subset
                    Sample.store Options.none)).
  - exact (proj1 (proj2 (selectPatterns_sound
                    Sample.parse Sample.CORE_PATTERN_SOURCES Sample.SYNC_TYPES
                    Sample.USER_PATTERNS Sample.filterOutDuplicatesByName
                    Sample.searchItems sample_searchItems_subset
                    Sample.unresolved Options.none))).
Defined.

(** The featured patterns of the sample store are the theme pattern and
    the hero; asked for fully synced ones, the theme pattern is gone *)
Lemma selectPatterns_syncStatus_hides_theme_patterns_sample :
  truthy (VStr "fully") = true
  /\ Forall (fun pattern : object => pattern !! "syncStatus" = None)
            (selectThemePatterns_sources Sample.store)
  /\ length (elements (Result.patterns
               (sample_selectPatterns Sample.store
                  {| Options.categoryId := VStr "featured";
                     Options.search := VUndefined;
                     Options.syncStatus := VUndefined |})))
     = 2%nat
  /\ elements (Result.patterns
        (sample_selectPatterns Sample.store
           {| Options.categoryId := VStr "featured";
              Options.search := VUndefined;
              Options.syncStatus := VStr "fully" |}))
     = [ sample_patternBlockToPattern Sample.hero (Defined Sample.categoriesMap) ]
  /\ Forall
       (fun item =>
          item ∈ elements (Result.patterns
                             (sample_selectUserPatterns Sample.store Options.none)))
       (elements (Result.patterns
          (sample_selectPatterns Sample.store
             {| Options.categoryId := VStr "featured";
                Options.search := VUndefined;
                Options.syncStatus := VStr "fully" |}))).
Proof.
  assert (Hsources : Forall (fun pattern : object => pattern !! "syncStatus" = None)
                            (selectThemePatterns_sources Sample.store)).
  { repeat constructor. }
  split; [reflexivity|]. split; [exact Hsources|].
  split; [by_evaluation|]. split; [by_evaluation|].
  exact (selectPatterns_syncStatus_hides_theme_patterns
           Sample.parse Sample.CORE_PATTERN_SOURCES Sample.SYNC_TYPES
           Sample.USER_PATTERNS Sample.filterOutDuplicatesByName
           Sample.searchItems sample_searchItems_subset
           Sample.store
           {| Options.categoryId := VStr "featured";
              Options.search := VUndefined;
              Options.syncStatus := VStr "fully" |}
           eq_refl Hsources).
Defined.

(** The three category types on the sample store *)
Lemma usePatterns_dispatch_sample :
  Sample.PATTERNS <> Sample.TEMPLATE_PARTS
  /\ Sample.USER_PATTERNS <> Sample.TEMPLATE_PARTS
  /\ Sample.USER_PATTERNS <> Sample.PATTERNS
  /\ sample_usePatterns (VStr Sample.TEMPLATE_PARTS) (VStr "header") unsynced_only
     = sample_selectTemplatePartsAsPatterns Sample.store
         {| Options.categoryId := VStr "header";
            Options.search := VStr "";
            Options.syncStatus := VUndefined |}
  /\ sample_usePatterns (VStr Sample.PATTERNS) (VStr "header") unsynced_only
     = sample_selectPatterns Sample.store
         {| Options.categoryId := VStr "header";
            Options.search := VStr "";
            Options.syncStatus := VStr "unsynced" |}
  /\ sample_usePatterns (VStr Sample.USER_PATTERNS) (VStr "header") unsynced_only
     = sample_selectUserPatterns Sample.store
         {| Options.categoryId := VUndefined;
            Options.search := VStr "";
            Options.syncStatus := VStr "unsynced" |}.
Proof.
  assert (H1 : Sample.PATTERNS <> Sample.TEMPLATE_PARTS) by discriminate.
  assert (H2 : Sample.USER_PATTERNS <> Sample.TEMPLATE_PARTS) by discriminate.
  assert (H3 : Sample.USER_PATTERNS <> Sample.PATTERNS) by discriminate.
  pose proof (usePatterns_dispatch
                Sample.parse Sample.decodeEntities Sample.useSelect
                Sample.CORE_PATTERN_SOURCES Sample.PATTERNS Sample.SYNC_TYPES
                Sample.TEMPLATE_PARTS Sample.USER_PATTERNS
                Sample.filterOutDuplicatesByName Sample.searchItems
                Sample.store (fun _ _ => eq_refl)
                (VStr "header") unsynced_only)
    as (Htemplate & Hpatterns & Huser).
  split; [exact H1|]. split; [exact H2|]. split; [exact H3|].
  split; [exact Htemplate|].
  split; [exact (Hpatterns H1) | exact (Huser H2 H3)].
Defined.

(** Template parts asked for with and without a sync status, and user
    patterns asked for under two category ids *)
Lemma usePatterns_ignores_sample :
  sample_usePatterns (VStr Sample.TEMPLATE_PARTS) (VStr "header") unsynced_only
  = sample_usePatterns (VStr Sample.TEMPLATE_PARTS) (VStr "header") Options.none
  /\ sample_usePatterns (VStr Sample.USER_PATTERNS) (VStr "header") unsynced_only
     = sample_usePatterns (VStr Sample.USER_PATTERNS) VUndefined
         {| Options.categoryId := VUndefined;
            Options.search := VStr "";
            Options.syncStatus := VStr "unsynced" |}.
Proof.
  split.
  - exact (proj1 (usePatterns_ignores
                    Sample.parse Sample.decodeEntities Sample.useSelect
                    Sample.CORE_PATTERN_SOURCES Sample.PATTERNS Sample.SYNC_TYPES
                    Sample.TEMPLATE_PARTS Sample.USER_PATTERNS
                    Sample.filterOutDuplicatesByName Sample.searchItems
                    Sample.store (fun _ _ => eq_refl)
                    VUndefined (VStr "header") VUndefined
                    unsynced_only Options.none eq_refl)).
  - refine (proj1 (proj2 (usePatterns_ignores
                    Sample.parse Sample.decodeEntities Sample.useSelect
                    Sample.CORE_PATTERN_SOURCES Sample.PATTERNS Sample.SYNC_TYPES
                    Sample.TEMPLATE_PARTS Sample.USER_PATTERNS
                    Sample.filterOutDuplicatesByName Sample.searchItems
                    Sample.store (fun _ _ => eq_refl)
                    VUndefined (VStr "header") VUndefined
                    unsynced_only
                    {| Options.categoryId := VUndefined;
                       Options.search := VStr "";
                       Options.syncStatus := VStr "unsynced" |}
                    eq_refl)) _ _ eq_refl); discriminate.
Defined.
